(** * Housing-affordability loaders: ACS tables and HUD fair-market rents

    A shallow embedding of [backend/src/config.py], [backend/src/load_acs.py]
    and [backend/src/load_hud.py], followed by the properties the
    specification states about them.

    Conventions of the embedding.
    - Python [str] is [string], the bytes of its UTF-8 encoding; the case
      operations are the ASCII ones and bytes above 127 are left alone,
      except in the search for "Median", which follows [re.IGNORECASE] on
      the letters of that word.
    - Python [float] is IEEE binary64, here [spec_float] at precision 53 and
      maximal exponent 1024.  A missing value of a float64 column is NaN.
    - The columns of the ACS side are float64 columns: the arithmetic of
      [load_acs_affordability] is that of NumPy on float64.  pandas gives
      a table whose estimates are all missing a column of Python objects
      instead, and dividing in such a column is Python's own division;
      that path is outside the embedding, see [LoadAcs.float_column].
    - A pandas DataFrame as the readers deliver it is a list of column
      labels and a list of rows of cells.
    - Exceptions are the [Err] case of [result]; [print] on the HUD side is a
      list of log events threaded through the loop. *)

From Stdlib Require Import ZArith List String Ascii Bool Lia.
From Stdlib Require Import Floats.SpecFloat.
Import ListNotations.

Local Open Scope string_scope.
Local Open Scope Z_scope.

(* ================================================================= *)
(** ** Exceptions *)

Inductive exn : Type :=
  | FileNotFoundError
  | KeyError
  | IndexError
  | ValueError.

Inductive result (A : Type) : Type :=
  | Ok (a : A)
  | Err (e : exn).

Arguments Ok {A} a.
Arguments Err {A} e.

Definition bind {A B : Type} (m : result A) (k : A -> result B) : result B :=
  match m with
  | Ok a => k a
  | Err e => Err e
  end.

Notation "x <- m ;; k" := (bind m (fun x => k))
  (at level 61, m at next level, right associativity).

(** A [for] loop that builds a list and stops at the first exception. *)
Fixpoint for_each {A B : Type} (f : A -> result B) (l : list A) : result (list B) :=
  match l with
  | [] => Ok []
  | a :: t => b <- f a ;; bs <- for_each f t ;; Ok (b :: bs)
  end.

(* ================================================================= *)
(** ** Python string primitives *)

Module PyStr.

Definition code (c : ascii) : nat := nat_of_ascii c.

Definition between (lo hi : nat) (c : ascii) : bool :=
  (Nat.leb lo (code c) && Nat.leb (code c) hi)%bool.

(** [c.lower()] on one ASCII character. *)
Definition lower_char (c : ascii) : ascii :=
  if between 65 90 c then ascii_of_nat (code c + 32) else c.

(** [s.lower()]. *)
Fixpoint lower (s : string) : string :=
  match s with
  | EmptyString => EmptyString
  | String c t => String (lower_char c) (lower t)
  end.

(** [needle in hay]. *)
Fixpoint contains (needle hay : string) : bool :=
  (prefix needle hay
   || match hay with
      | EmptyString => false
      | String _ t => contains needle t
      end)%bool.

(** [s.endswith(suf)]: some tail of [s] is [suf]. *)
Fixpoint endswith (suf s : string) : bool :=
  ((s =? suf)%string
   || match s with
      | EmptyString => false
      | String _ t => endswith suf t
      end)%bool.

(** [s.split(sep)[0]] for a non-empty [sep]: the text before the leftmost
    occurrence of [sep], all of [s] when there is none. *)
Fixpoint split_head (sep s : string) : string :=
  if prefix sep s then EmptyString
  else match s with
       | EmptyString => EmptyString
       | String c t => String c (split_head sep t)
       end.

(** [s.replace(c, "")] for a one-character [c]. *)
Fixpoint remove_char (c : ascii) (s : string) : string :=
  match s with
  | EmptyString => EmptyString
  | String d t =>
      if Ascii.eqb c d then remove_char c t else String d (remove_char c t)
  end.

(** The ASCII characters [str.strip()] removes: tab to carriage return, the
    four separators 0x1c to 0x1f, and the space. *)
Definition is_space (c : ascii) : bool :=
  (between 9 13 c || between 28 31 c || Nat.eqb (code c) 32)%bool.

Fixpoint lstrip_by (p : ascii -> bool) (s : string) : string :=
  match s with
  | EmptyString => EmptyString
  | String c t => if p c then lstrip_by p t else s
  end.

Fixpoint rstrip_by (p : ascii -> bool) (s : string) : string :=
  match s with
  | EmptyString => EmptyString
  | String c t =>
      match rstrip_by p t with
      | EmptyString => if p c then EmptyString else String c EmptyString
      | t' => String c t'
      end
  end.

(** [s.strip()]. *)
Definition strip (s : string) : string :=
  rstrip_by is_space (lstrip_by is_space s).

(** The last character of a text. *)
Fixpoint last_char (s : string) : option ascii :=
  match s with
  | EmptyString => None
  | String c EmptyString => Some c
  | String _ t => last_char t
  end.

(** [c.upper()] on one ASCII character. *)
Definition upper_char (c : ascii) : ascii :=
  if between 97 122 c then ascii_of_nat (code c - 32) else c.

(** Four characters outside ASCII, in their UTF-8 bytes: the capital I with
    a dot (U+0130), the small i without one (U+0131), the long s (U+017F)
    and the Kelvin sign (U+212A). *)
Definition dotted_capital_i : string := String "196" (String "176" EmptyString).
Definition dotless_i : string := String "196" (String "177" EmptyString).
Definition long_s : string := String "197" (String "191" EmptyString).
Definition kelvin_sign : string :=
  String "226" (String "132" (String "170" EmptyString)).

(** The texts that stand for one ASCII letter of a pattern compiled with
    [re.IGNORECASE]: its two cases, and for "i", "s" and "k" the characters
    above, which the [re] module folds onto them. *)
Definition letter_forms (p : ascii) : list string :=
  let l := lower_char p in
  String l EmptyString
  :: String (upper_char l) EmptyString
  :: (if Ascii.eqb l "i" then [dotted_capital_i; dotless_i]
      else if Ascii.eqb l "s" then [long_s]
      else if Ascii.eqb l "k" then [kelvin_sign]
      else []).

(** What is left of [s] after the prefix [p]. *)
Fixpoint strip_prefix (p s : string) : option string :=
  match p with
  | EmptyString => Some s
  | String a p' =>
      match s with
      | String b s' => if Ascii.eqb a b then strip_prefix p' s' else None
      | EmptyString => None
      end
  end.

(** A pattern of letters matched at the start of [s], case ignored. *)
Fixpoint match_ignorecase (pat s : string) : bool :=
  match pat with
  | EmptyString => true
  | String p pat' =>
      existsb
        (fun form =>
           match strip_prefix form s with
           | Some rest => match_ignorecase pat' rest
           | None => false
           end)
        (letter_forms p)
  end.

(** [re.compile(pat, re.IGNORECASE).search(s) is not None] for a pattern of
    letters. *)
Fixpoint search_ignorecase (pat s : string) : bool :=
  (match_ignorecase pat s
   || match s with
      | EmptyString => false
      | String _ t => search_ignorecase pat t
      end)%bool.

(** [str(n)] for an [int]. *)
Definition digit_char (d : Z) : ascii := ascii_of_nat (48 + Z.to_nat d).

Fixpoint digits_fuel (fuel : nat) (n : Z) (acc : string) : string :=
  match fuel with
  | O => acc
  | S fuel' =>
      let acc' := String (digit_char (n mod 10)) acc in
      if n <? 10 then acc' else digits_fuel fuel' (n / 10) acc'
  end.

Definition str_of_nonneg (n : Z) : string :=
  digits_fuel (S (Z.to_nat (Z.log2 n))) n EmptyString.

Definition str_of_int (z : Z) : string :=
  if z <? 0 then String "-" (str_of_nonneg (- z)) else str_of_nonneg z.

End PyStr.

(* ================================================================= *)
(** ** binary64 and [float(str)] *)

Module Float64.

Definition prec : Z := 53.
Definition emax : Z := 1024.

Definition float : Type := spec_float.

Definition nan : float := S754_nan.
Definition inf (neg : bool) : float := S754_infinity neg.

Definition div (x y : float) : float := SFdiv prec emax x y.
Definition mul (x y : float) : float := SFmul prec emax x y.

(** [float(n)] for an [int], round to nearest even. *)
Definition of_int (n : Z) : float := binary_normalize prec emax n 0 false.

(** [pd.isna] on a float. *)
Definition isna (x : float) : bool :=
  match x with
  | S754_nan => true
  | _ => false
  end.

Definition is_inf (x : float) : bool :=
  match x with
  | S754_infinity _ => true
  | _ => false
  end.

Definition is_zero (x : float) : bool :=
  match x with
  | S754_zero _ => true
  | _ => false
  end.

(** The value [(-1)^neg * m * 10^e] rounded to the nearest binary64, ties
    to even; beyond the range it is an infinity, as [float("1e400")]. *)
Definition of_decimal (neg : bool) (m e : Z) : float :=
  if m <=? 0 then S754_zero neg
  else
    let num := m * 10 ^ Z.max e 0 in
    let den := 10 ^ Z.max (- e) 0 in
    SFdiv prec emax (S754_finite neg (Z.to_pos num) 0)
                    (S754_finite false (Z.to_pos den) 0).

Definition digit_of (c : ascii) : option Z :=
  if PyStr.between 48 57 c then Some (Z.of_nat (PyStr.code c - 48)) else None.

Definition is_digit (c : ascii) : bool :=
  match digit_of c with
  | Some _ => true
  | None => false
  end.

(** Underscores of a numeric literal: each one stands between two digits.
    [prev] is the character before [s]; the result is the text without
    its underscores, or [None] when one of them is misplaced. *)
Fixpoint drop_underscores (prev : option ascii) (s : string) : option string :=
  match s with
  | EmptyString =>
      match prev with
      | Some "_"%char => None
      | _ => Some EmptyString
      end
  | String c t =>
      if Ascii.eqb c "_" then
        match prev with
        | Some p => if is_digit p then drop_underscores (Some c) t else None
        | None => None
        end
      else
        match prev with
        | Some "_"%char =>
            if is_digit c
            then option_map (String c) (drop_underscores (Some c) t)
            else None
        | _ => option_map (String c) (drop_underscores (Some c) t)
        end
  end.

(** The whitespace [float] skips at both ends ([Py_ISSPACE]). *)
Definition is_c_space (c : ascii) : bool :=
  (PyStr.between 9 13 c || Nat.eqb (PyStr.code c) 32)%bool.

Definition take_sign (s : string) : bool * string :=
  match s with
  | String "-" t => (true, t)
  | String "+" t => (false, t)
  | _ => (false, s)
  end.

(** Reads a run of digits: the number read so far, how many digits were
    read, and the rest. *)
Fixpoint span_digits (s : string) (acc cnt : Z) : Z * Z * string :=
  match s with
  | EmptyString => (acc, cnt, EmptyString)
  | String c t =>
      match digit_of c with
      | Some d => span_digits t (10 * acc + d) (cnt + 1)
      | None => (acc, cnt, s)
      end
  end.

(** An exponent part [e], [E] with an optional sign and at least one
    digit; anything else is left unread. *)
Definition take_exponent (s : string) : Z * string :=
  match s with
  | String c t =>
      if Ascii.eqb (PyStr.lower_char c) "e" then
        let '(neg, t') := take_sign t in
        let '(v, cnt, rest) := span_digits t' 0 0 in
        if cnt =? 0 then (0, s) else ((if neg then - v else v), rest)
      else (0, s)
  | EmptyString => (0, s)
  end.

Definition parse_special (neg : bool) (body : string) : option float :=
  let l := PyStr.lower body in
  if (l =? "inf")%string then Some (inf neg)
  else if (l =? "infinity")%string then Some (inf neg)
  else if (l =? "nan")%string then Some nan
  else None.

Definition parse_decimal (neg : bool) (body : string) : option float :=
  let '(ip, ni, s1) := span_digits body 0 0 in
  let '(m, nf, s2) :=
    match s1 with
    | String "." t => span_digits t ip 0
    | _ => (ip, 0, s1)
    end in
  if ni + nf =? 0 then None
  else
    let '(ex, s3) := take_exponent s2 in
    match s3 with
    | EmptyString => Some (of_decimal neg m (ex - nf))
    | _ => None
    end.

(** [float(s)] for a [str]; [None] stands for the [ValueError]. *)
Definition py_float (s : string) : option float :=
  match drop_underscores None s with
  | None => None
  | Some s' =>
      let body := PyStr.rstrip_by is_c_space (PyStr.lstrip_by is_c_space s') in
      let '(neg, rest) := take_sign body in
      match parse_special neg rest with
      | Some x => Some x
      | None => parse_decimal neg rest
      end
  end.

End Float64.

(* ================================================================= *)
(** ** Tables as the readers deliver them *)

(** One cell of a loaded table: a missing value, text, an integer, a float
    or a boolean. *)
Inductive cell : Type :=
  | CNull
  | CStr (s : string)
  | CInt (z : Z)
  | CFloat (f : Float64.float)
  | CBool (b : bool).

(** Column labels are text (a header that is not text stands by its
    [str]) and, as [read_csv] and [read_excel] rename repeated headers,
    pairwise distinct; a row lists its cells in column order. *)
Record DataFrame : Type := {
  columns : list string;
  rows : list (list cell)
}.

Definition has_column (df : DataFrame) (c : string) : bool :=
  existsb (String.eqb c) (columns df).

(** The cell of [row] under column [c]; a row that stops short of the
    column reads as missing, as the readers pad it. *)
Fixpoint cell_at (cols : list string) (row : list cell) (c : string) : cell :=
  match cols, row with
  | k :: cols', v :: row' => if (k =? c)%string then v else cell_at cols' row' c
  | _, _ => CNull
  end.

(** [pd.isna] on a cell. *)
Definition isna_cell (c : cell) : bool :=
  match c with
  | CNull => true
  | CFloat f => Float64.isna f
  | _ => false
  end.

(* ================================================================= *)
(** ** config.py *)

Module Config.

(** [YEARS = list(range(2013, 2024))]. *)
Definition YEARS : list Z :=
  [2013; 2014; 2015; 2016; 2017; 2018; 2019; 2020; 2021; 2022; 2023].

Definition TARGET_GEOS : list (string * string) :=
  [ ("fergus_falls_city", "Fergus Falls city, Minnesota");
    ("otter_tail_county", "Otter Tail County, Minnesota");
    ("minneapolis_city", "Minneapolis city, Minnesota");
    ("hennepin_county", "Hennepin County, Minnesota") ].

End Config.

(* ================================================================= *)
(** ** load_acs.py *)

Module LoadAcs.

(** What the file system holds for the ACS side: whether the directory of
    a year exists, and the tables of the files that
    [year_dir.glob("ACSDT5Y<year>.<table_id>*.csv")] lists, in listing
    order, each as [pd.read_csv] loads it. *)
Record World : Type := {
  year_dir_exists : Z -> bool;
  glob_csv : Z -> string -> list DataFrame
}.

(** [_find_table_file] followed by [pd.read_csv]; the warning printed when
    several files match is not recorded. *)
Definition _find_table_file (w : World) (year : Z) (table_id : string)
  : result DataFrame :=
  if negb (year_dir_exists w year) then Err FileNotFoundError
  else
    match glob_csv w year table_id with
    | [] => Err FileNotFoundError
    | first :: _ => Ok first
    end.

Definition label_col : string := "Label (Grouping)".
Definition estimate_suffix : string := "!!Estimate".

(** [df[label_col].astype(str).str.contains("Median", case=False, na=False)]
    on one label cell: a search for the pattern "Median" compiled with
    [re.IGNORECASE].  Only text can match: the text of a missing value, a
    number or a boolean holds no "median". *)
Definition is_median_label (c : cell) : bool :=
  match c with
  | CStr s => PyStr.search_ignorecase "Median" s
  | _ => false
  end.

(** The same on a row, read under the label column. *)
Definition labelled_median (df : DataFrame) (r : list cell) : bool :=
  is_median_label (cell_at (columns df) r label_col).

Definition median_rows (df : DataFrame) : list (list cell) :=
  filter (labelled_median df) (rows df).

(** The first median row, else [df.iloc[[0]]], which raises on a table
    without rows. *)
Definition select_median_row (df : DataFrame) : result (list cell) :=
  match median_rows df with
  | r :: _ => Ok r
  | [] =>
      match rows df with
      | r :: _ => Ok r
      | [] => Err IndexError
      end
  end.

(** The two columns of a geography in the export: its estimate and its
    margin of error. *)
Definition pair_columns (geo : string) : list string :=
  [geo ++ estimate_suffix; geo ++ "!!Margin of Error"].

(** A geography whose text, up to the separator that follows it in a column
    name, holds no separator of its own. *)
Definition separator_free (geo : string) : Prop :=
  PyStr.contains "!!" (geo ++ "!") = false.

Definition estimate_cols (df : DataFrame) : list string :=
  filter (PyStr.endswith estimate_suffix) (columns df).

(** [float(cleaned) if cleaned != "" else None]. *)
Definition parse_cleaned (cleaned : string) : result (option Float64.float) :=
  if (cleaned =? "")%string then Ok None
  else
    match Float64.py_float cleaned with
    | Some x => Ok (Some x)
    | None => Err ValueError
    end.

(** The value of one selected cell.  For a float cell [str(raw)] is its
    shortest representation, which [float] reads back as the same
    number. *)
Definition cell_value (raw : cell) : result (option Float64.float) :=
  if isna_cell raw then Ok None
  else
    match raw with
    | CStr s => parse_cleaned (PyStr.strip (PyStr.remove_char "," s))
    | CInt z => parse_cleaned (PyStr.str_of_int z)
    | CBool b => parse_cleaned (if b then "True" else "False")
    | CFloat f => Ok (Some f)
    | CNull => Ok None
    end.

(** One row of the tidy table of [_load_single_table]: the columns
    [year], [geo_name] and the table id. *)
Record MetricRecord : Type := {
  mr_year : Z;
  mr_geo_name : string;
  mr_value : option Float64.float
}.

(** The body of the loop over the estimate columns. *)
Definition record_for (year : Z) (df : DataFrame) (median_row : list cell)
    (col : string) : result MetricRecord :=
  value <- cell_value (cell_at (columns df) median_row col) ;;
  Ok {| mr_year := year;
        mr_geo_name := PyStr.split_head "!!" col;
        mr_value := value |}.

(** [_load_single_table] once the file is read. *)
Definition extract (year : Z) (df : DataFrame) : result (list MetricRecord) :=
  if negb (has_column df label_col) then Err KeyError
  else
    median_row <- select_median_row df ;;
    match estimate_cols df with
    | [] => Err KeyError
    | cols => for_each (record_for year df median_row) cols
    end.

Definition _load_single_table (w : World) (year : Z) (table_id : string)
  : result (list MetricRecord) :=
  df <- _find_table_file w year table_id ;;
  extract year df.

(** [pd.DataFrame(records)] gives the "value" column the dtype float64 as
    soon as one record holds a number; when every value is [None] pandas
    keeps a column of Python objects.  The definitions from [to_column] to
    [load_acs_affordability] embed the float64 case only. *)
Definition has_value (r : MetricRecord) : bool :=
  match mr_value r with
  | Some _ => true
  | None => false
  end.

Definition float_column (records : list MetricRecord) : bool :=
  existsb has_value records.

(** A [None] of the records is NaN in the float64 column built from
    them.  This is the reading of a column for which [float_column]
    holds; an object column keeps its [None]. *)
Definition to_column (v : option Float64.float) : Float64.float :=
  match v with
  | Some x => x
  | None => Float64.nan
  end.

Definition key_eqb (a b : string * Z) : bool :=
  ((fst a =? fst b)%string && (snd a =? snd b))%bool.

(** [left.merge(right, on=["geo_name", "year"], how="inner")]: every pair
    of rows with equal keys.  The theorems below speak of membership only,
    not of the order of the rows. *)
Definition merge_inner {A B : Type} (ka : A -> string * Z) (kb : B -> string * Z)
    (left : list A) (right : list B) : list (A * B) :=
  flat_map
    (fun l => map (fun r => (l, r)) (filter (fun r => key_eqb (ka l) (kb r)) right))
    left.

Record MergedRow : Type := {
  year : Z;
  geo_name : string;
  B19013 : Float64.float;
  B25077 : Float64.float;
  B25064 : Float64.float
}.

Definition mr_key (r : MetricRecord) : string * Z := (mr_geo_name r, mr_year r).

Definition merge_tables (income home_value rent : list MetricRecord)
  : list MergedRow :=
  let merged := merge_inner mr_key mr_key income home_value in
  let merged := merge_inner (fun p => mr_key (fst p)) mr_key merged rent in
  map (fun p =>
         {| year := mr_year (fst (fst p));
            geo_name := mr_geo_name (fst (fst p));
            B19013 := to_column (mr_value (fst (fst p)));
            B25077 := to_column (mr_value (snd (fst p)));
            B25064 := to_column (mr_value (snd p)) |})
      merged.

Definition load_year (w : World) (y : Z) : result (list MergedRow) :=
  income <- _load_single_table w y "B19013" ;;
  home_value <- _load_single_table w y "B25077" ;;
  rent <- _load_single_table w y "B25064" ;;
  Ok (merge_tables income home_value rent).

(** [pd.concat(frames, ignore_index=True)]: no frame at all is a
    [ValueError]. *)
Definition concat_frames {A : Type} (frames : list (list A)) : result (list A) :=
  match frames with
  | [] => Err ValueError
  | _ => Ok (List.concat frames)
  end.

Definition target_names : list string := map snd Config.TARGET_GEOS.

Definition isin (names : list string) (g : string) : bool :=
  existsb (String.eqb g) names.

Record AffordabilityRecord : Type := {
  a_year : Z;
  a_geo_name : string;
  median_household_income : Float64.float;
  median_home_value : Float64.float;
  median_gross_rent : Float64.float;
  price_to_income : Float64.float;
  rent_to_income : Float64.float
}.

(** The two ratio columns, by the division and the multiplication of
    float64 columns: a zero or missing denominator gives an infinity or
    NaN and raises nothing.  Division in an object column is not
    embedded. *)
Definition with_ratios (r : MergedRow) : AffordabilityRecord :=
  {| a_year := year r;
     a_geo_name := geo_name r;
     median_household_income := B19013 r;
     median_home_value := B25077 r;
     median_gross_rent := B25064 r;
     price_to_income := Float64.div (B25077 r) (B19013 r);
     rent_to_income :=
       Float64.div (Float64.mul (B25064 r) (Float64.of_int 12)) (B19013 r) |}.

(** [if years is None: years = YEARS]. *)
Definition chosen_years (years : option (list Z)) : list Z :=
  match years with
  | Some l => l
  | None => Config.YEARS
  end.

(** The whole load, for tables whose columns are float64 columns (see
    [float_column]); what the code does once a table has no estimate at
    all is not embedded. *)
Definition load_acs_affordability (w : World) (years : option (list Z))
  : result (list AffordabilityRecord) :=
  let years := chosen_years years in
  frames <- for_each (load_year w) years ;;
  all_years <- concat_frames frames ;;
  let filtered := filter (fun r => isin target_names (geo_name r)) all_years in
  Ok (map with_ratios filtered).

End LoadAcs.

(* ================================================================= *)
(** ** load_hud.py *)

Module LoadHud.

(** [HUD_FMR_FILES], the paths taken relative to [PROJECT_ROOT]. *)
Definition HUD_FMR_FILES : list (Z * string) :=
  [ (2013, "2013/FY2013_4050_Final.xls");
    (2014, "2014/FY2014_4050_RevFinal.xls");
    (2015, "2015/FY2015_4050_RevFinal (1).xls");
    (2016, "2016/FY2016F-4050-RevFinal4.xlsx");
    (2017, "2017/FY2017-4050-County-Level_Data.xlsx");
    (2018, "2018/FY18_4050_FMRs_rev (1).xlsx");
    (2019, "2019/FY2019_4050_FMRs_rev2.xlsx");
    (2020, "2020/FY20_4050_FMRs_rev.xlsx");
    (2021, "2021/FY21_4050_FMRs_rev.xlsx");
    (2022, "2022/FY22_FMRs_revised.xlsx");
    (2023, "2023/FY23_FMRs_revised.xlsx") ].

(** [d.get(year)]. *)
Fixpoint dict_get (d : list (Z * string)) (year : Z) : option string :=
  match d with
  | [] => None
  | (k, v) :: t => if k =? year then Some v else dict_get t year
  end.

(** What the file system holds for the HUD side: which paths exist, and
    what [pd.read_excel] makes of a path, [None] when it raises. *)
Record World : Type := {
  path_exists : string -> bool;
  read_excel : string -> option DataFrame
}.

(** The lines the loader prints. *)
Inductive log_event : Type :=
  | NoFileConfigured (year : Z)
  | FileNotFound (year : Z) (path : string)
  | ReadFailed (year : Z) (path : string)
  | NoGeoColumn (path : string)
  | NoFmrColumn (path : string).

(** What indexing a row by a label gives: the cell, or, when several
    columns carry the label, the sub-series of them. *)
Inductive pyval : Type :=
  | Scalar (c : cell)
  | Series (items : list (string * cell)).

(** The text Python prints for a float and for a series; neither is
    modelled, every statement below holds whatever they are. *)
Record Printer : Type := {
  repr_float : Float64.float -> string;
  repr_series : list (string * cell) -> string
}.

Definition str_cell (pr : Printer) (c : cell) : string :=
  match c with
  | CNull => "nan"
  | CStr s => s
  | CInt z => PyStr.str_of_int z
  | CFloat f => repr_float pr f
  | CBool b => if b then "True" else "False"
  end.

(** [str(v)]. *)
Definition py_str (pr : Printer) (v : pyval) : string :=
  match v with
  | Scalar c => str_cell pr c
  | Series items => repr_series pr items
  end.

(** *** Column selection *)

Definition geo_keyword (c : string) : bool :=
  (PyStr.contains "name" (PyStr.lower c) || PyStr.contains "area" (PyStr.lower c))%bool.

Definition fmr_keywords : list string := ["2br"; "2 br"; "fmr2"; "fmr_2"].

Definition fmr_keyword (c : string) : bool :=
  existsb (fun k => PyStr.contains k (PyStr.lower c)) fmr_keywords.

Inductive selection : Type :=
  | Selected (geo_col fmr_col : string)
  | NoGeo
  | NoFmr.

Definition select_columns (cols : list string) : selection :=
  if (existsb (String.eqb "areaname") cols && existsb (String.eqb "fmr_2") cols)%bool
  then Selected "areaname" "fmr_2"
  else
    match filter geo_keyword cols with
    | [] => NoGeo
    | geo_col :: _ =>
        match filter fmr_keyword cols with
        | [] => NoFmr
        | fmr_col :: _ => Selected geo_col fmr_col
        end
    end.

(** *** The sub-table of a year *)

(** A row with its labels, as [iterrows] yields it. *)
Definition labelled_row : Type := list (string * cell).

(** [row[key]], [None] for the [KeyError]. *)
Definition row_get (row : labelled_row) (key : string) : option pyval :=
  match filter (fun kv => (fst kv =? key)%string) row with
  | [] => None
  | [(_, v)] => Some (Scalar v)
  | items => Some (Series items)
  end.

(** [sub.rename(columns={old: new})] on one row. *)
Definition rename (old new : string) (row : labelled_row) : labelled_row :=
  map (fun kv => if (fst kv =? old)%string then (new, snd kv) else kv) row.

(** [sub[key] = v] on one row: every column of that label is overwritten,
    a new column is appended. *)
Definition assign (key : string) (v : cell) (row : labelled_row) : labelled_row :=
  if existsb (fun kv => (fst kv =? key)%string) row
  then map (fun kv => if (fst kv =? key)%string then (key, v) else kv) row
  else (row ++ [(key, v)])%list.

(** Whether a row has a cell under the label. *)
Definition has_label (key : string) (row : labelled_row) : bool :=
  existsb (fun kv => (fst kv =? key)%string) row.

(** One row of the sub-table: the three wanted cells, the rent column
    renamed, the year set. *)
Definition sub_row (df : DataFrame) (geo_col fmr_col : string) (year : Z)
    (r : list cell) : labelled_row :=
  assign "year" (CInt year)
    (rename fmr_col "hud_fmr_2br"
       (map (fun c => (c, cell_at (columns df) r c))
            [geo_col; fmr_col; "countyname"])).

(** [df[[geo_col, fmr_col, "countyname"]]], renamed and with its year. *)
Definition sub_frame (df : DataFrame) (geo_col fmr_col : string) (year : Z)
  : result (list labelled_row) :=
  if forallb (has_column df) [geo_col; fmr_col; "countyname"] then
    Ok (map (sub_row df geo_col fmr_col year) (rows df))
  else Err KeyError.

(** *** Expansion of a row into the ACS geographies *)

Record HudRecord : Type := {
  rec_year : pyval;
  rec_hud_fmr_2br : pyval;
  rec_geo_name : string
}.

Definition otter_tail_geos : list string :=
  ["Otter Tail County, Minnesota"; "Fergus Falls city, Minnesota"].

Definition hennepin_geos : list string :=
  ["Hennepin County, Minnesota"; "Minneapolis city, Minnesota"].

Definition county_text (pr : Printer) (row : labelled_row) : string :=
  match row_get row "countyname" with
  | Some v => py_str pr v
  | None => ""
  end.

Definition _expand_to_acs_geos (pr : Printer) (row : labelled_row)
  : result (list HudRecord) :=
  let countyname := county_text pr row in
  match row_get row "year", row_get row "hud_fmr_2br" with
  | Some y, Some v =>
      let rec_for geo :=
        {| rec_year := y; rec_hud_fmr_2br := v; rec_geo_name := geo |} in
      Ok ((if PyStr.contains "otter tail" (PyStr.lower countyname)
           then map rec_for otter_tail_geos else [])
          ++
          (if PyStr.contains "hennepin" (PyStr.lower countyname)
           then map rec_for hennepin_geos else []))%list
  | _, _ => Err KeyError
  end.

(** *** The loop over the years *)

(** One turn of the loop: the year is skipped with what was printed, or
    its frame is appended, or an exception leaves the loop. *)
Inductive outcome : Type :=
  | Skipped (printed : list log_event)
  | Mapped (records : list HudRecord)
  | Raised (e : exn).

Definition expand_frame (pr : Printer) (df : DataFrame)
    (geo_col fmr_col : string) (year : Z) : outcome :=
  match sub <- sub_frame df geo_col fmr_col year ;;
        for_each (_expand_to_acs_geos pr) sub with
  | Err e => Raised e
  | Ok per_row =>
      match List.concat per_row with
      | [] => Skipped []
      | expanded_records => Mapped expanded_records
      end
  end.

Definition load_one (pr : Printer) (w : World) (year : Z) : outcome :=
  match dict_get HUD_FMR_FILES year with
  | None => Skipped [NoFileConfigured year]
  | Some path =>
      if negb (path_exists w path) then Skipped [FileNotFound year path]
      else
        match read_excel w path with
        | None => Skipped [ReadFailed year path]
        | Some df =>
            match select_columns (columns df) with
            | NoGeo => Skipped [NoGeoColumn path]
            | NoFmr => Skipped [NoFmrColumn path]
            | Selected geo_col fmr_col => expand_frame pr df geo_col fmr_col year
            end
        end
  end.

(** The loop, with the frames and the printed lines collected so far. *)
Fixpoint loop (pr : Printer) (w : World) (years : list Z)
    (frames : list (list HudRecord)) (printed : list log_event)
  : list log_event * result (list (list HudRecord)) :=
  match years with
  | [] => (printed, Ok frames)
  | year :: rest =>
      match load_one pr w year with
      | Skipped l => loop pr w rest frames (printed ++ l)%list
      | Mapped records => loop pr w rest (frames ++ [records])%list printed
      | Raised e => (printed, Err e)
      end
  end.

(** The anomalies of a year that the loop answers with a printed line and
    [continue]: no path configured, no file at the path, a workbook that
    [read_excel] cannot read, and a workbook without a plausible geography
    or rent column. *)
Inductive year_fails (w : World) (year : Z) : log_event -> Prop :=
  | fails_unconfigured :
      dict_get HUD_FMR_FILES year = None ->
      year_fails w year (NoFileConfigured year)
  | fails_missing : forall path,
      dict_get HUD_FMR_FILES year = Some path ->
      path_exists w path = false ->
      year_fails w year (FileNotFound year path)
  | fails_unreadable : forall path,
      dict_get HUD_FMR_FILES year = Some path ->
      path_exists w path = true ->
      read_excel w path = None ->
      year_fails w year (ReadFailed year path)
  | fails_no_geo : forall path df,
      dict_get HUD_FMR_FILES year = Some path ->
      path_exists w path = true ->
      read_excel w path = Some df ->
      select_columns (columns df) = NoGeo ->
      year_fails w year (NoGeoColumn path)
  | fails_no_fmr : forall path df,
      dict_get HUD_FMR_FILES year = Some path ->
      path_exists w path = true ->
      read_excel w path = Some df ->
      select_columns (columns df) = NoFmr ->
      year_fails w year (NoFmrColumn path).

(** The table returned: its columns in order, and its rows. *)
Record HudFrame : Type := {
  hud_columns : list string;
  hud_rows : list HudRecord
}.

Definition result_frame (frames : list (list HudRecord)) : HudFrame :=
  match frames with
  | [] => {| hud_columns := ["year"; "geo_name"; "hud_fmr_2br"]; hud_rows := [] |}
  | _ => {| hud_columns := ["year"; "hud_fmr_2br"; "geo_name"];
            hud_rows := List.concat frames |}
  end.

(** [sorted(HUD_FMR_FILES.keys())]; the keys are written in ascending
    order. *)
Definition default_years : list Z := map fst HUD_FMR_FILES.

(** [if years is None: years = sorted(HUD_FMR_FILES.keys())]. *)
Definition chosen_years (years : option (list Z)) : list Z :=
  match years with
  | Some l => l
  | None => default_years
  end.

Definition load_hud_fmr (pr : Printer) (w : World) (years : option (list Z))
  : list log_event * result HudFrame :=
  let '(printed, r) := loop pr w (chosen_years years) [] [] in
  (printed, frames <- r ;; Ok (result_frame frames)).

End LoadHud.

(* ================================================================= *)
(** ** Sample inputs *)

Module Samples.

(** Tables as data.census.gov exports them: a heading row, then the row
    of the median with an estimate and a margin of error per geography. *)
Definition two_counties : list string :=
  ["Hennepin County, Minnesota"; "Otter Tail County, Minnesota"].

Definition table_of (geos : list string) (label : string) (cells : list cell)
  : DataFrame :=
  {| columns := LoadAcs.label_col :: flat_map LoadAcs.pair_columns geos;
     rows := [ CStr "Label" :: map (fun _ => CNull) (flat_map LoadAcs.pair_columns geos);
               CStr label :: cells ] |}.

Definition acs_table : string -> list cell -> DataFrame := table_of two_counties.

Definition income_2020 : DataFrame :=
  acs_table "    Median household income in the past 12 months"
    [CStr "81,169"; CStr "+/-1,012"; CStr "59,584"; CStr "+/-1,693"].

Definition home_value_2020 : DataFrame :=
  acs_table "Median value (dollars)"
    [CStr "300,600"; CStr "+/-2,135"; CStr "205,500"; CStr "+/-4,410"].

Definition rent_2020 : DataFrame :=
  acs_table "Median gross rent"
    [CStr "1,202"; CStr "+/-14"; CInt 764; CStr "+/-31"].

(** A rent table that lacks Otter Tail County. *)
Definition rent_hennepin_only : DataFrame :=
  table_of ["Hennepin County, Minnesota"] "Median gross rent"
    [CStr "1,202"; CStr "+/-14"].

(** Tables that also carry the state. *)
Definition with_state (label : string) (state county : string) : DataFrame :=
  table_of ["Minnesota"; "Hennepin County, Minnesota"] label
    [CStr state; CStr "+/-1"; CStr county; CStr "+/-1"].

(** The example of the specification, an income of zero, and a missing
    income. *)
Definition income_of (income : cell) : DataFrame :=
  table_of ["Hennepin County, Minnesota"] "Median household income"
    [income; CStr "+/-1"].

Definition home_value_200000 : DataFrame :=
  table_of ["Hennepin County, Minnesota"] "Median value (dollars)"
    [CStr "200,000"; CStr "+/-1"].

Definition rent_1000 : DataFrame :=
  table_of ["Hennepin County, Minnesota"] "Median gross rent"
    [CStr "1,000"; CStr "+/-1"].

(** A file system with the three tables of 2020 and nothing else. *)
Definition acs_world (income home_value rent : DataFrame) : LoadAcs.World :=
  {| LoadAcs.year_dir_exists := fun y => y =? 2020;
     LoadAcs.glob_csv := fun y table_id =>
       if negb (y =? 2020) then []
       else if (table_id =? "B19013")%string then [income]
       else if (table_id =? "B25077")%string then [home_value]
       else if (table_id =? "B25064")%string then [rent]
       else [] |}.

(** A home-value table whose first estimate is top-coded. *)
Definition home_value_topcoded : DataFrame :=
  acs_table "Median value (dollars)"
    [CStr "2,000,000+"; CStr "***"; CStr "185,300"; CStr "+/-4,410"].

(** A rent table whose second estimate is the dash of a suppressed cell. *)
Definition rent_suppressed : DataFrame :=
  acs_table "Median gross rent"
    [CStr "1,202"; CStr "+/-14"; CStr "-"; CStr "**"].

(** Workbooks of the HUD side.  The first has the two known columns, the
    second other headers for the same, the third no county column, the
    fourth no rent column. *)
Definition hud_known : DataFrame :=
  {| columns := ["fips2010"; "fmr_2"; "areaname"; "countyname"];
     rows := [ [CInt 2700199999; CInt 655; CStr "Aitkin County, MN"; CStr "Aitkin County"];
               [CInt 2705399999; CInt 996;
                CStr "Minneapolis-St. Paul-Bloomington, MN-WI MSA"; CStr "Hennepin County"];
               [CInt 2711199999; CInt 672; CStr "Otter Tail County, MN";
                CStr "Otter Tail County"] ] |}.

Definition hud_other_headers : DataFrame :=
  {| columns := ["FIPS"; "HUD Area Name"; "countyname"; "FMR2"];
     rows := [ [CInt 2711199999; CStr "Otter Tail County, MN";
                CStr "OTTER TAIL COUNTY"; CFloat (Float64.of_int 700)] ] |}.

Definition hud_no_county : DataFrame :=
  {| columns := ["fips2010"; "fmr_2"; "areaname"];
     rows := [ [CInt 2711199999; CInt 672; CStr "Otter Tail County, MN"] ] |}.

Definition hud_no_rent : DataFrame :=
  {| columns := ["fips2010"; "areaname"; "countyname"];
     rows := [ [CInt 2711199999; CStr "Otter Tail County, MN";
                CStr "Otter Tail County"] ] |}.

(** A file system that holds the given workbooks; [None] is a file that
    [read_excel] cannot read. *)
Definition hud_world (files : list (string * option DataFrame)) : LoadHud.World :=
  {| LoadHud.path_exists := fun p => existsb (fun f => (fst f =? p)%string) files;
     LoadHud.read_excel := fun p =>
       match find (fun f => (fst f =? p)%string) files with
       | Some (_, content) => content
       | None => None
       end |}.

(** 2013 and 2015 load, 2014 cannot be read, 2016 has no rent column, the
    later years have no file. *)
Definition hud_mixed : LoadHud.World :=
  hud_world [ ("2013/FY2013_4050_Final.xls", Some hud_known);
              ("2014/FY2014_4050_RevFinal.xls", None);
              ("2015/FY2015_4050_RevFinal (1).xls", Some hud_other_headers);
              ("2016/FY2016F-4050-RevFinal4.xlsx", Some hud_no_rent) ].

(** 2013 loads without a county column, 2014 loads well. *)
Definition hud_county_lost : LoadHud.World :=
  hud_world [ ("2013/FY2013_4050_Final.xls", Some hud_no_county);
              ("2014/FY2014_4050_RevFinal.xls", Some hud_known) ].

(** A stand-in for the text Python prints. *)
Definition printer : LoadHud.Printer :=
  {| LoadHud.repr_float := fun _ => "0.0";
     LoadHud.repr_series := fun _ => "Series" |}.


End Samples.

(* ================================================================= *)
(** ** Notions for the further properties *)

Module Notions.

(** The columns whose cells [_load_single_table] looks at: the label column
    and the estimate columns. *)
Definition read_by_extract (c : string) : bool :=
  ((c =? LoadAcs.label_col)%string || PyStr.endswith LoadAcs.estimate_suffix c)%bool.

(** Two rows that agree on every cell [_load_single_table] looks at. *)
Definition same_read_cells (cols : list string) (r r' : list cell) : Prop :=
  forall c, read_by_extract c = true -> cell_at cols r c = cell_at cols r' c.

(** What a pattern of letters can stand for when case is ignored: one
    form of each letter, in order. *)
Fixpoint expands (pat m : string) : Prop :=
  match pat with
  | EmptyString => m = EmptyString
  | String p pat' =>
      exists form m',
        In form (PyStr.letter_forms p) /\ m = form ++ m' /\ expands pat' m'
  end.

(** A label that says "Median" in some letter case: a text cell with,
    somewhere in it, an m, an e, a d, an i, an a and an n in a row, each
    small or capital, the i also with a dot on the capital or without one
    on the small letter. *)
Definition says_median (c : cell) : Prop :=
  exists s before m e d i a n after,
    c = CStr s
    /\ s = before ++ m ++ e ++ d ++ i ++ a ++ n ++ after
    /\ In m ["m"; "M"] /\ In e ["e"; "E"] /\ In d ["d"; "D"]
    /\ In i ["i"; "I"; PyStr.dotted_capital_i; PyStr.dotless_i]
    /\ In a ["a"; "A"] /\ In n ["n"; "N"].

(** The label of a row. *)
Definition label_of (df : DataFrame) (r : list cell) : cell :=
  cell_at (columns df) r LoadAcs.label_col.

(** A table whose median row is the third, in capitals; one whose median
    is written with a dotless i; one without any median row. *)
Definition capital_label : DataFrame :=
  {| columns := [LoadAcs.label_col; "Minnesota!!Estimate"];
     rows := [ [CStr "Total:"; CStr "5"]; [CNull; CStr "6"];
               [CStr "  MEDIAN GROSS RENT"; CStr "1,010"];
               [CStr "Median (again)"; CStr "7"] ] |}.

Definition dotless_label : DataFrame :=
  {| columns := [LoadAcs.label_col; "Minnesota!!Estimate"];
     rows := [ [CStr "Mean"; CStr "5"];
               [CStr ("Med" ++ PyStr.dotless_i ++ "an rent"); CStr "1,010"] ] |}.

Definition no_median_label : DataFrame :=
  {| columns := [LoadAcs.label_col; "Minnesota!!Estimate"];
     rows := [ [CStr "Total:"; CStr "5"]; [CStr "Mean"; CStr "6"] ] |}.

(** A text of decimal digits only. *)
Definition all_digits (s : string) : Prop :=
  forall c, In c (list_ascii_of_string s) -> Float64.is_digit c = true.

(** The county and its principal city stand for each other. *)
Definition partner (geo : string) : string :=
  if (geo =? "Otter Tail County, Minnesota")%string then "Fergus Falls city, Minnesota"
  else if (geo =? "Fergus Falls city, Minnesota")%string then "Otter Tail County, Minnesota"
  else if (geo =? "Hennepin County, Minnesota")%string then "Minneapolis city, Minnesota"
  else if (geo =? "Minneapolis city, Minnesota")%string then "Hennepin County, Minnesota"
  else geo.

(** The ACS names a county text stands for. *)
Definition geos_of (county : string) : list string :=
  ((if PyStr.contains "otter tail" county then LoadHud.otter_tail_geos else [])
   ++ (if PyStr.contains "hennepin" county then LoadHud.hennepin_geos else []))%list.

(** The records of one row of a workbook with the columns "areaname",
    "fmr_2" and "countyname": the year asked for, the cell under "fmr_2",
    and the names the county text stands for. *)
Definition known_records (pr : LoadHud.Printer) (df : DataFrame) (year : Z)
    (raw : list cell) : list LoadHud.HudRecord :=
  map (fun geo =>
         {| LoadHud.rec_year := LoadHud.Scalar (CInt year);
            LoadHud.rec_hud_fmr_2br :=
              LoadHud.Scalar (cell_at (columns df) raw "fmr_2");
            LoadHud.rec_geo_name := geo |})
      (geos_of (PyStr.lower
                  (LoadHud.str_cell pr (cell_at (columns df) raw "countyname")))).

(** The tables [load_acs_affordability] loads for a year: income, home
    value and rent. *)
Definition table_ids : list string := ["B19013"; "B25077"; "B25064"].

(** Every table that loads for a year asked for has an estimate, so that
    all the columns of the load are float64 columns. *)
Definition float_columns (w : LoadAcs.World) (years : option (list Z)) : Prop :=
  forall y t records,
    In y (LoadAcs.chosen_years years) ->
    In t table_ids ->
    LoadAcs._load_single_table w y t = Ok records ->
    LoadAcs.float_column records = true.

(** The key of a row of the final table. *)
Definition row_key (a : LoadAcs.AffordabilityRecord) : string * Z :=
  (LoadAcs.a_geo_name a, LoadAcs.a_year a).

(** The key of a row before the ratios are added. *)
Definition merged_key (m : LoadAcs.MergedRow) : string * Z :=
  (LoadAcs.geo_name m, LoadAcs.year m).

(** The world of the sample tables of 2020. *)
Definition acs_2020 : LoadAcs.World :=
  Samples.acs_world Samples.income_2020 Samples.home_value_2020 Samples.rent_2020.

(** The income table of 2020 with other margins of error and another
    heading row. *)
Definition income_2020_other_margins : DataFrame :=
  {| columns := columns Samples.income_2020;
     rows := [ [CStr "Label"; CNull; CStr "x"; CNull; CInt 7];
               [CStr "    Median household income in the past 12 months";
                CStr "81,169"; CNull; CStr "59,584"; CStr "n/a"] ] |}.

(** A table without the label column, one without rows, and one without
    estimate columns. *)
Definition no_label_column : DataFrame :=
  {| columns := ["Geography"; "Minnesota!!Estimate"];
     rows := [[CStr "Median"; CStr "1"]] |}.

Definition no_rows : DataFrame :=
  {| columns := [LoadAcs.label_col]; rows := [] |}.

Definition no_estimates : DataFrame :=
  {| columns := [LoadAcs.label_col; "Minnesota!!Margin of Error"];
     rows := [[CStr "Median"; CStr "1"]] |}.

End Notions.

(* ================================================================= *)
(** * Properties *)

(** ** Loops that may raise *)

Section ForEach.
Context {A B : Type}.
Variable f : A -> result B.

Lemma for_each_inv : forall l bs,
    for_each f l = Ok bs -> Forall2 (fun a b => f a = Ok b) l bs.
Proof.
  induction l as [|a t IH]; simpl; intros bs H.
  - inversion H. constructor.
  - destruct (f a) as [b|e] eqn:Ha; simpl in H; [|discriminate].
    destruct (for_each f t) as [bs'|e] eqn:Ht; simpl in H; [|discriminate].
    inversion H; subst. constructor; auto.
Qed.

Lemma for_each_ok : forall l,
    (forall a, In a l -> exists b, f a = Ok b) ->
    exists bs, for_each f l = Ok bs.
Proof.
  induction l as [|a t IH]; simpl; intros H.
  - eauto.
  - destruct (H a) as [b Hb]; [auto|]. rewrite Hb. simpl.
    destruct IH as [bs Hbs]; [intros; apply H; auto|].
    rewrite Hbs. simpl. eauto.
Qed.

Lemma for_each_err : forall l e,
    for_each f l = Err e -> exists a, In a l /\ f a = Err e.
Proof.
  induction l as [|a t IH]; simpl; intros e H.
  - discriminate.
  - destruct (f a) as [b|e'] eqn:Ha; simpl in H.
    + destruct (for_each f t) as [bs'|e'] eqn:Ht; simpl in H; [discriminate|].
      inversion H; subst. destruct (IH e eq_refl) as [x [Hx Hfx]]. eauto.
    + inversion H; subst. eauto.
Qed.

Lemma for_each_raises : forall l a e,
    In a l -> f a = Err e -> exists e', for_each f l = Err e'.
Proof.
  induction l as [|x t IH]; simpl; intros a e Hin Ha; [contradiction|].
  destruct Hin as [->|Hin].
  - rewrite Ha. simpl. eauto.
  - destruct (f x); simpl; [|eauto].
    destruct (IH a e Hin Ha) as [e' He']. rewrite He'. simpl. eauto.
Qed.

End ForEach.

Lemma Forall2_length_eq {A B : Type} (R : A -> B -> Prop) l1 l2 :
  Forall2 R l1 l2 -> List.length l1 = List.length l2.
Proof. induction 1; simpl; congruence. Qed.

(** ** Text *)

Section Text.

Lemma append_empty_r : forall s, s ++ "" = s.
Proof. induction s; simpl; congruence. Qed.

Lemma append_assoc : forall a b c : string, (a ++ b) ++ c = a ++ (b ++ c).
Proof. induction a; simpl; intros; congruence. Qed.

Lemma prefix_app : forall p s, prefix p (p ++ s) = true.
Proof.
  induction p as [|c p IH]; simpl; intros.
  - destruct s; reflexivity.
  - destruct (ascii_dec c c); [auto|congruence].
Qed.

Lemma prefix_inv : forall p s, prefix p s = true -> exists r, s = p ++ r.
Proof.
  induction p as [|c p IH]; intros s H.
  - exists s. reflexivity.
  - destruct s as [|d s]; simpl in H; [discriminate|].
    destruct (ascii_dec c d); [subst|discriminate].
    destruct (IH s H) as [r ->]. exists r. reflexivity.
Qed.

Lemma contains_cons : forall n c h,
    PyStr.contains n (String c h)
    = (prefix n (String c h) || PyStr.contains n h)%bool.
Proof. reflexivity. Qed.

Lemma split_head_cons : forall sep c s,
    PyStr.split_head sep (String c s)
    = if prefix sep (String c s) then "" else String c (PyStr.split_head sep s).
Proof. reflexivity. Qed.

Lemma contains_of_prefix : forall n h,
    prefix n h = true -> PyStr.contains n h = true.
Proof.
  intros n h H. destruct h.
  - destruct n; [reflexivity | discriminate H].
  - rewrite contains_cons, H. reflexivity.
Qed.

Lemma contains_intro : forall n a b, PyStr.contains n (a ++ n ++ b) = true.
Proof.
  intros n a b. induction a as [|c a IH].
  - change ("" ++ n ++ b) with (n ++ b).
    apply contains_of_prefix, prefix_app.
  - change (String c a ++ n ++ b) with (String c (a ++ n ++ b)).
    rewrite contains_cons, IH. apply orb_true_r.
Qed.

Lemma contains_inv : forall n h,
    PyStr.contains n h = true -> exists a b, h = a ++ n ++ b.
Proof.
  intros n h. induction h as [|c h IH]; intros H.
  - destruct n; [exists "", ""; reflexivity | discriminate H].
  - rewrite contains_cons in H. apply orb_true_iff in H. destruct H as [H|H].
    + destruct (prefix_inv _ _ H) as [r Hr]. exists "", r. exact Hr.
    + destruct (IH H) as [a [b ->]]. exists (String c a), b. reflexivity.
Qed.

Lemma endswith_eq : forall suf s,
    PyStr.endswith suf s
    = ((s =? suf)%string
       || match s with
          | EmptyString => false
          | String _ t => PyStr.endswith suf t
          end)%bool.
Proof. destruct s; reflexivity. Qed.

Lemma endswith_app : forall suf a, PyStr.endswith suf (a ++ suf) = true.
Proof.
  intros suf a. induction a as [|c a IH].
  - change ("" ++ suf) with suf. rewrite endswith_eq, String.eqb_refl. reflexivity.
  - change (String c a ++ suf) with (String c (a ++ suf)).
    rewrite endswith_eq, IH. apply orb_true_r.
Qed.

Lemma endswith_inv : forall suf s,
    PyStr.endswith suf s = true -> exists a, s = a ++ suf.
Proof.
  intros suf s. induction s as [|c s IH]; intros H; rewrite endswith_eq in H.
  - rewrite orb_false_r in H. apply String.eqb_eq in H. exists "". auto.
  - apply orb_true_iff in H. destruct H as [H|H].
    + apply String.eqb_eq in H. exists "". auto.
    + destruct (IH H) as [a ->]. exists (String c a). reflexivity.
Qed.

Lemma last_char_app : forall a c t,
    PyStr.last_char (a ++ String c t) = PyStr.last_char (String c t).
Proof.
  induction a as [|d a IH]; intros c t; [reflexivity|].
  change (String d a ++ String c t) with (String d (a ++ String c t)).
  destruct (a ++ String c t) eqn:E.
  - destruct a; discriminate.
  - rewrite <- E. simpl. rewrite E. rewrite <- E. apply IH.
Qed.

Lemma split_head_prefix : forall sep s,
    PyStr.contains sep s = true ->
    exists rest, s = PyStr.split_head sep s ++ sep ++ rest.
Proof.
  intros sep s. induction s as [|c s IH]; intros H.
  - destruct sep; [exists ""; reflexivity | discriminate H].
  - rewrite contains_cons in H. rewrite split_head_cons.
    destruct (prefix sep (String c s)) eqn:P.
    + destruct (prefix_inv _ _ P) as [r Hr]. exists r. exact Hr.
    + simpl in H. destruct (IH H) as [r Hr]. exists r. simpl. congruence.
Qed.

Lemma split_head_no_sep : forall sep s,
    PyStr.contains sep s = false -> PyStr.split_head sep s = s.
Proof.
  intros sep s. induction s as [|c s IH]; intros H.
  - destruct sep; reflexivity.
  - rewrite contains_cons in H. apply orb_false_iff in H. destruct H as [P H].
    rewrite split_head_cons, P, (IH H). reflexivity.
Qed.

End Text.


(** ** The table extractor of load_acs.py *)

Section TableExtractor.

Import LoadAcs.

Lemma filter_first {A : Type} (p : A -> bool) : forall l r rest,
    filter p l = r :: rest ->
    exists pre post,
      l = (pre ++ r :: post)%list /\ p r = true /\ Forall (fun x => p x = false) pre.
Proof.
  induction l as [|x l IH]; simpl; intros r rest H; [discriminate|].
  destruct (p x) eqn:Px.
  - inversion H; subst. exists [], l. auto.
  - destruct (IH r rest H) as [pre [post [-> [Hr Hpre]]]].
    exists (x :: pre), post. auto.
Qed.

Lemma filter_none {A : Type} (p : A -> bool) : forall l,
    filter p l = [] -> Forall (fun x => p x = false) l.
Proof.
  induction l as [|x l IH]; simpl; intros H; [constructor|].
  destruct (p x) eqn:Px; [discriminate|]. constructor; auto.
Qed.

Lemma parse_cleaned_err : forall s e, parse_cleaned s = Err e -> e = ValueError.
Proof.
  unfold parse_cleaned. intros s e.
  destruct (s =? "")%string; [discriminate|].
  destruct (Float64.py_float s); [discriminate|]. congruence.
Qed.

Lemma cell_value_err : forall raw e, cell_value raw = Err e -> e = ValueError.
Proof.
  unfold cell_value. intros raw e.
  destruct (isna_cell raw); [discriminate|].
  destruct raw; try discriminate; apply parse_cleaned_err.
Qed.

Lemma record_for_err : forall y df r col e,
    record_for y df r col = Err e -> e = ValueError.
Proof.
  unfold record_for. intros y df r col e H.
  destruct (cell_value (cell_at (columns df) r col)) eqn:V; simpl in H; [discriminate|].
  apply cell_value_err in V. congruence.
Qed.

(** *** The search for "Median" *)

Lemma strip_prefix_spec : forall p s rest,
    PyStr.strip_prefix p s = Some rest <-> s = p ++ rest.
Proof.
  induction p as [|a p IH]; intros s rest.
  - simpl. split; congruence.
  - destruct s as [|b s]; simpl.
    + split; discriminate.
    + destruct (Ascii.eqb_spec a b) as [->|Hab].
      * rewrite IH. split; [intros ->; reflexivity|congruence].
      * split; [discriminate|congruence].
Qed.

Lemma match_ignorecase_spec : forall pat s,
    PyStr.match_ignorecase pat s = true
    <-> exists m rest, s = m ++ rest /\ Notions.expands pat m.
Proof.
  induction pat as [|p pat IH]; intros s.
  - simpl. split; [intros _; exists "", s; auto|reflexivity].
  - cbn [PyStr.match_ignorecase Notions.expands]. rewrite existsb_exists. split.
    + intros [form [Hform H]].
      destruct (PyStr.strip_prefix form s) as [rest|] eqn:E; [|discriminate].
      apply strip_prefix_spec in E. apply IH in H.
      destruct H as [m' [rest' [-> Hm']]].
      exists (form ++ m'), rest'. split.
      * rewrite E, append_assoc. reflexivity.
      * exists form, m'. auto.
    + intros [m [rest [-> [form [m' [Hform [-> Hm']]]]]]].
      exists form. split; [exact Hform|].
      rewrite append_assoc.
      rewrite (proj2 (strip_prefix_spec form _ (m' ++ rest)) eq_refl).
      apply IH. eauto.
Qed.

Lemma search_ignorecase_spec : forall pat s,
    PyStr.search_ignorecase pat s = true
    <-> exists before m after, s = before ++ m ++ after /\ Notions.expands pat m.
Proof.
  intros pat s. induction s as [|c s IH].
  - cbn [PyStr.search_ignorecase]. rewrite orb_false_r, match_ignorecase_spec. split.
    + intros [m [rest [E H]]]. exists "", m, rest. auto.
    + intros [before [m [after [E H]]]].
      destruct before; [|discriminate]. exists m, after. auto.
  - cbn [PyStr.search_ignorecase]. rewrite orb_true_iff, match_ignorecase_spec, IH.
    split.
    + intros [[m [rest [E H]]]|[before [m [after [E H]]]]].
      * exists "", m, rest. auto.
      * exists (String c before), m, after. rewrite E. auto.
    + intros [before [m [after [E H]]]]. destruct before as [|b before].
      * left. exists m, after. auto.
      * right. simpl in E. inversion E; subst. exists before, m, after. auto.
Qed.

Lemma expands_median : forall x,
    Notions.expands "Median" x
    <-> exists m e d i a n,
        x = m ++ e ++ d ++ i ++ a ++ n
        /\ In m ["m"; "M"] /\ In e ["e"; "E"] /\ In d ["d"; "D"]
        /\ In i ["i"; "I"; PyStr.dotted_capital_i; PyStr.dotless_i]
        /\ In a ["a"; "A"] /\ In n ["n"; "N"].
Proof.
  intros x. cbn [Notions.expands].
  change (PyStr.letter_forms "M") with ["m"; "M"].
  change (PyStr.letter_forms "e") with ["e"; "E"].
  change (PyStr.letter_forms "d") with ["d"; "D"].
  change (PyStr.letter_forms "i")
    with ["i"; "I"; PyStr.dotted_capital_i; PyStr.dotless_i].
  change (PyStr.letter_forms "a") with ["a"; "A"].
  change (PyStr.letter_forms "n") with ["n"; "N"].
  split.
  - intros (m & x1 & Hm & -> & e & x2 & He & -> & d & x3 & Hd & -> & i & x4 & Hi
            & -> & a & x5 & Ha & -> & n & x6 & Hn & -> & ->).
    exists m, e, d, i, a, n. rewrite append_empty_r. auto 10.
  - intros (m & e & d & i & a & n & -> & Hm & He & Hd & Hi & Ha & Hn).
    exists m, (e ++ d ++ i ++ a ++ n). split; [exact Hm|]. split; [reflexivity|].
    exists e, (d ++ i ++ a ++ n). split; [exact He|]. split; [reflexivity|].
    exists d, (i ++ a ++ n). split; [exact Hd|]. split; [reflexivity|].
    exists i, (a ++ n). split; [exact Hi|]. split; [reflexivity|].
    exists a, n. split; [exact Ha|]. split; [reflexivity|].
    exists n, "". split; [exact Hn|]. split; [|reflexivity].
    symmetry. apply append_empty_r.
Qed.

(** The test of the code on a label is the search for "Median" in any
    letter case. *)
Lemma is_median_label_spec : forall c,
    is_median_label c = true <-> Notions.says_median c.
Proof.
  intros c. unfold Notions.says_median. split.
  - destruct c as [|s| | |]; simpl; try discriminate.
    intros H. apply search_ignorecase_spec in H.
    destruct H as [before [x [after [-> Hx]]]].
    apply expands_median in Hx.
    destruct Hx as (m & e & d & i & a & n & -> & Hm & He & Hd & Hi & Ha & Hn).
    exists (before ++ (m ++ e ++ d ++ i ++ a ++ n) ++ after),
      before, m, e, d, i, a, n, after.
    split; [reflexivity|]. split; [|auto 10].
    f_equal. rewrite !append_assoc. reflexivity.
  - intros (s & before & m & e & d & i & a & n & after & -> & -> & Hm & He & Hd
            & Hi & Ha & Hn).
    simpl. apply search_ignorecase_spec.
    exists before, (m ++ e ++ d ++ i ++ a ++ n), after. split.
    + f_equal. rewrite !append_assoc. reflexivity.
    + apply expands_median. exists m, e, d, i, a, n. auto 10.
Qed.

Lemma not_median_label : forall c,
    is_median_label c = false <-> ~ Notions.says_median c.
Proof.
  intros c. rewrite <- is_median_label_spec.
  destruct (is_median_label c); split; congruence.
Qed.

(** C8.  In a table that has the label column and at least one row,
    [select_median_row] returns the first row whose label is text that
    holds the letters of "Median" in a row, each in either case; when no
    row has such a label it returns the first row of the table.  So a row
    is always selected, and the extraction never stops with the
    [IndexError] of an empty selection. *)
Theorem select_median_row_total :
  forall (year : Z) (df : DataFrame),
    has_column df label_col = true ->
    rows df <> [] ->
    exists r,
      select_median_row df = Ok r
      /\ ((exists pre post,
              rows df = (pre ++ r :: post)%list
              /\ Notions.says_median (Notions.label_of df r)
              /\ Forall (fun x => ~ Notions.says_median (Notions.label_of df x)) pre)
          \/ (Forall (fun x => ~ Notions.says_median (Notions.label_of df x)) (rows df)
              /\ exists post, rows df = r :: post))
      /\ extract year df <> Err IndexError.
Proof.
  intros y df Hcol Hrows.
  assert (Hno : forall l,
             Forall (fun x => labelled_median df x = false) l ->
             Forall (fun x => ~ Notions.says_median (Notions.label_of df x)) l).
  { intros l H. eapply Forall_impl; [|exact H].
    intros x Hx. apply not_median_label. exact Hx. }
  assert (Hsel : exists r,
             select_median_row df = Ok r
             /\ ((exists pre post,
                     rows df = (pre ++ r :: post)%list
                     /\ Notions.says_median (Notions.label_of df r)
                     /\ Forall (fun x => ~ Notions.says_median (Notions.label_of df x))
                          pre)
                 \/ (Forall (fun x => ~ Notions.says_median (Notions.label_of df x))
                       (rows df)
                     /\ exists post, rows df = r :: post))).
  { unfold select_median_row, median_rows.
    destruct (filter (labelled_median df) (rows df)) as [|r rest] eqn:F.
    - destruct (rows df) as [|r post] eqn:R; [congruence|].
      exists r. split; [reflexivity|]. right. split.
      + apply Hno. rewrite <- R in F. apply filter_none in F. rewrite R in F. exact F.
      + eauto.
    - exists r. split; [reflexivity|]. left.
      apply filter_first in F. destruct F as [pre [post [E [Hr Hpre]]]].
      exists pre, post. split; [exact E|]. split; [|apply Hno; exact Hpre].
      apply is_median_label_spec. exact Hr. }
  destruct Hsel as [r [Hr Hchar]]. exists r. repeat split; auto.
  unfold extract. rewrite Hcol, Hr. cbn [negb bind].
  destruct (estimate_cols df) as [|c cs]; [discriminate|].
  intros H. apply for_each_err in H. destruct H as [col [_ H]].
  apply record_for_err in H. discriminate.
Qed.

Lemma select_median_row_total_witness :
  select_median_row Samples.income_2020
  = Ok [ CStr "    Median household income in the past 12 months";
         CStr "81,169"; CStr "+/-1,012"; CStr "59,584"; CStr "+/-1,693" ]
  /\ Notions.says_median (CStr "    Median household income in the past 12 months")
  /\ ~ Notions.says_median (CStr "Label")
  /\ extract 2020 Samples.income_2020 <> Err IndexError.
Proof.
  destruct (select_median_row_total 2020 Samples.income_2020)
    as [r [Hsel [Hchar Hext]]]; [reflexivity|discriminate|].
  assert (Hr : r = [ CStr "    Median household income in the past 12 months";
                     CStr "81,169"; CStr "+/-1,012"; CStr "59,584";
                     CStr "+/-1,693" ]).
  { vm_compute in Hsel. inversion Hsel. reflexivity. }
  subst r. split; [exact Hsel|].
  destruct Hchar as [[pre [post [E [Hsays Hpre]]]]|[_ [post E]]].
  - split; [exact Hsays|]. split; [|exact Hext].
    destruct pre as [|a pre]; [vm_compute in E; discriminate E|].
    apply Forall_inv in Hpre.
    assert (Ha : a = [CStr "Label"; CNull; CNull; CNull; CNull]).
    { vm_compute in E. inversion E. reflexivity. }
    subst a. exact Hpre.
  - vm_compute in E. discriminate E.
Defined.

(** The letter case does not matter, and the first such row wins. *)
Example capital_label_selected :
  select_median_row Notions.capital_label
  = Ok [CStr "  MEDIAN GROSS RENT"; CStr "1,010"]
  /\ Notions.says_median (CStr "  MEDIAN GROSS RENT")
  /\ ~ Notions.says_median (CStr "Total:")
  /\ ~ Notions.says_median CNull.
Proof.
  split; [reflexivity|]. split; [apply is_median_label_spec; reflexivity|].
  split; apply not_median_label; reflexivity.
Qed.

(** A small i without its dot is an i to the search. *)
Example dotless_label_selected :
  select_median_row Notions.dotless_label
  = Ok [CStr ("Med" ++ PyStr.dotless_i ++ "an rent"); CStr "1,010"]
  /\ Notions.says_median (CStr ("Med" ++ PyStr.dotless_i ++ "an rent"))
  /\ ~ Notions.says_median (CStr "Mean").
Proof.
  split; [reflexivity|]. split; [apply is_median_label_spec; reflexivity|].
  apply not_median_label; reflexivity.
Qed.

(** Without a median row the first row of the table is taken. *)
Example no_median_label_falls_back :
  select_median_row Notions.no_median_label = Ok [CStr "Total:"; CStr "5"]
  /\ Forall (fun x => ~ Notions.says_median (Notions.label_of Notions.no_median_label x))
       (rows Notions.no_median_label).
Proof.
  split; [reflexivity|].
  repeat constructor; apply not_median_label; reflexivity.
Qed.


(** *** Cleaning and parsing of a cell *)

Lemma remove_char_absent : forall c s, ~ In c (list_ascii_of_string (PyStr.remove_char c s)).
Proof.
  intros c s. induction s as [|d s IH]; simpl; [tauto|].
  destruct (Ascii.eqb c d) eqn:E; [exact IH|].
  simpl. intros [H|H]; [|tauto].
  subst. rewrite Ascii.eqb_refl in E. discriminate.
Qed.

Lemma lstrip_by_chars : forall p s x,
    In x (list_ascii_of_string (PyStr.lstrip_by p s)) -> In x (list_ascii_of_string s).
Proof.
  intros p s x. induction s as [|c s IH]; simpl; [tauto|].
  destruct (p c); simpl; tauto.
Qed.

Lemma rstrip_by_chars : forall p s x,
    In x (list_ascii_of_string (PyStr.rstrip_by p s)) -> In x (list_ascii_of_string s).
Proof.
  intros p s x. induction s as [|c s IH]; simpl; [tauto|].
  destruct (PyStr.rstrip_by p s) as [|d t] eqn:E.
  - destruct (p c); simpl; tauto.
  - simpl in *. tauto.
Qed.

Lemma lstrip_by_head : forall p s c t,
    PyStr.lstrip_by p s = String c t -> p c = false.
Proof.
  intros p s. induction s as [|d s IH]; simpl; intros c t H; [discriminate|].
  destruct (p d) eqn:E; [eauto|]. inversion H; subst. exact E.
Qed.

Lemma rstrip_by_head : forall p c t,
    p c = false -> exists t', PyStr.rstrip_by p (String c t) = String c t'.
Proof.
  intros p c t H. simpl. destruct (PyStr.rstrip_by p t); [rewrite H|]; eauto.
Qed.

Lemma rstrip_by_last : forall p s c,
    PyStr.last_char (PyStr.rstrip_by p s) = Some c -> p c = false.
Proof.
  intros p s. induction s as [|d s IH]; simpl; intros c H; [discriminate|].
  destruct (PyStr.rstrip_by p s) as [|e t] eqn:E.
  - destruct (p d) eqn:Pd; simpl in H; [discriminate|]. congruence.
  - apply IH. exact H.
Qed.

(** What [raw.replace(",", "").strip()] leaves: no comma, and no white space
    at either end. *)
Lemma cleaned_text : forall s,
    let cleaned := PyStr.strip (PyStr.remove_char "," s) in
    ~ In ","%char (list_ascii_of_string cleaned)
    /\ (forall c t, cleaned = String c t -> PyStr.is_space c = false)
    /\ (forall c, PyStr.last_char cleaned = Some c -> PyStr.is_space c = false).
Proof.
  intros s cleaned. unfold cleaned, PyStr.strip. repeat split.
  - intros H. apply rstrip_by_chars, lstrip_by_chars in H.
    exact (remove_char_absent _ _ H).
  - intros c t H.
    destruct (PyStr.lstrip_by PyStr.is_space (PyStr.remove_char "," s))
      as [|d u] eqn:L; [discriminate|].
    pose proof (lstrip_by_head _ _ _ _ L) as Hd.
    destruct (rstrip_by_head PyStr.is_space d u Hd) as [t' Ht'].
    rewrite Ht' in H. congruence.
  - intros c. apply rstrip_by_last.
Qed.

Lemma extract_aborts : forall year df median_row col,
    has_column df label_col = true ->
    select_median_row df = Ok median_row ->
    In col (estimate_cols df) ->
    cell_value (cell_at (columns df) median_row col) = Err ValueError ->
    extract year df = Err ValueError.
Proof.
  intros y df r col Hcol Hr Hin Hv.
  unfold extract. rewrite Hcol, Hr. cbn [negb bind].
  destruct (estimate_cols df) as [|c cs] eqn:E; [contradiction|].
  assert (Hf : record_for y df r col = Err ValueError).
  { unfold record_for. rewrite Hv. reflexivity. }
  destruct (for_each_raises _ _ _ _ Hin Hf) as [e He].
  rewrite He. f_equal.
  apply for_each_err in He. destruct He as [a [_ Ha]].
  exact (record_for_err _ _ _ _ _ Ha).
Qed.

(** C3, as the code has it.  A missing cell gives a missing value.  The text
    of a cell loses its commas and then the white space around it; what is
    left gives a missing value when it is empty, the float [float] reads
    from it otherwise, and, when [float] rejects it, a [ValueError] that
    ends the extraction of the whole table.  So "96,339" gives 96339.0 and
    the empty text a missing value. *)
Theorem cell_value_normalizes :
  (forall raw, isna_cell raw = true -> cell_value raw = Ok None)
  /\ (forall s,
        let cleaned := PyStr.strip (PyStr.remove_char "," s) in
        (~ In ","%char (list_ascii_of_string cleaned)
         /\ (forall c t, cleaned = String c t -> PyStr.is_space c = false)
         /\ (forall c, PyStr.last_char cleaned = Some c -> PyStr.is_space c = false))
        /\ (cleaned = "" -> cell_value (CStr s) = Ok None)
        /\ (forall x, cleaned <> "" -> Float64.py_float cleaned = Some x ->
                      cell_value (CStr s) = Ok (Some x))
        /\ (cleaned <> "" -> Float64.py_float cleaned = None ->
            cell_value (CStr s) = Err ValueError
            /\ forall year df median_row col,
                has_column df label_col = true ->
                select_median_row df = Ok median_row ->
                In col (estimate_cols df) ->
                cell_at (columns df) median_row col = CStr s ->
                extract year df = Err ValueError))
  /\ cell_value (CStr "96,339") = Ok (Some (Float64.of_int 96339))
  /\ cell_value (CStr "") = Ok None
  /\ cell_value CNull = Ok None.
Proof.
  split; [|split; [|repeat split; vm_compute; reflexivity]].
  - intros raw H. unfold cell_value. rewrite H. reflexivity.
  - intros s cleaned.
    assert (Hne : cleaned <> "" -> (cleaned =? "")%string = false).
    { intros H. apply String.eqb_neq. exact H. }
    split; [apply cleaned_text|].
    split; [|split].
    + intros H. unfold cell_value, parse_cleaned. simpl. fold cleaned.
      rewrite H. reflexivity.
    + intros x H Hx. unfold cell_value, parse_cleaned. simpl. fold cleaned.
      rewrite (Hne H), Hx. reflexivity.
    + intros H Hx.
      assert (Hv : cell_value (CStr s) = Err ValueError).
      { unfold cell_value, parse_cleaned. simpl. fold cleaned.
        rewrite (Hne H), Hx. reflexivity. }
      split; [exact Hv|].
      intros y df r col Hcol Hr Hin Hcell.
      apply (extract_aborts y df r col); auto. rewrite Hcell. exact Hv.
Qed.

Lemma cell_value_normalizes_witness :
  cell_value (CStr " 1,234.5 ") = Ok (Some (Float64.of_decimal false 12345 (-1)))
  /\ cell_value (CStr "2,000,000+") = Err ValueError.
Proof.
  destruct cell_value_normalizes as [_ [H _]]. split.
  - destruct (H " 1,234.5 ") as [_ [_ [Hs _]]].
    apply Hs; [discriminate | vm_compute; reflexivity].
  - destruct (H "2,000,000+") as [_ [_ [_ Hf]]].
    apply Hf; [discriminate | vm_compute; reflexivity].
Defined.

(** C3 as the specification words it fails: the top-coded estimate
    "2,000,000+" is text that [float] rejects, and instead of a missing
    value the cell gives a [ValueError], which ends the extraction of the
    table that holds it. *)
Lemma unparsable_cell_raises :
  Float64.py_float (PyStr.strip (PyStr.remove_char "," "2,000,000+")) = None
  /\ cell_value (CStr "2,000,000+") <> Ok None
  /\ cell_value (CStr "2,000,000+") = Err ValueError
  /\ extract 2020 Samples.home_value_topcoded = Err ValueError.
Proof.
  repeat split; try (vm_compute; reflexivity).
  vm_compute. discriminate.
Qed.


(** *** Estimate columns *)

Lemma prefix_empty : forall s, prefix "" s = true.
Proof. destruct s; reflexivity. Qed.

Lemma prefix_cons : forall c p d s,
    prefix (String c p) (String d s) = if ascii_dec c d then prefix p s else false.
Proof. reflexivity. Qed.

Lemma prefix_bang : forall t rest,
    prefix "!" (t ++ "!!" ++ rest) = prefix "!" (t ++ "!").
Proof.
  intros t rest. destruct t as [|d u].
  - change ("" ++ "!!" ++ rest) with (String "!" (String "!" rest)).
    change ("" ++ "!") with (String "!" "").
    rewrite !prefix_cons, !prefix_empty. reflexivity.
  - change (String d u ++ "!!" ++ rest) with (String d (u ++ "!!" ++ rest)).
    change (String d u ++ "!") with (String d (u ++ "!")).
    rewrite !prefix_cons, !prefix_empty. reflexivity.
Qed.

Lemma split_head_own_separator : forall geo rest,
    separator_free geo ->
    PyStr.split_head "!!" (geo ++ "!!" ++ rest) = geo.
Proof.
  unfold separator_free. induction geo as [|c t IH]; intros rest H.
  - change ("" ++ "!!" ++ rest) with (String "!" (String "!" rest)).
    rewrite split_head_cons. 
    replace (prefix "!!" (String "!" (String "!" rest))) with true; [reflexivity|].
    rewrite !prefix_cons, prefix_empty. reflexivity.
  - change (String c t ++ "!") with (String c (t ++ "!")) in H.
    rewrite contains_cons in H. apply orb_false_iff in H. destruct H as [P H].
    change (String c t ++ "!!" ++ rest) with (String c (t ++ "!!" ++ rest)).
    rewrite split_head_cons.
    replace (prefix "!!" (String c (t ++ "!!" ++ rest))) with false.
    + rewrite (IH rest H). reflexivity.
    + transitivity (prefix "!!" (String c (t ++ "!"))); [symmetry; exact P|].
      rewrite !prefix_cons, prefix_bang. reflexivity.
Qed.

Lemma margin_is_no_estimate : forall geo,
    PyStr.endswith estimate_suffix (geo ++ "!!Margin of Error") = false.
Proof.
  intros geo. destruct (PyStr.endswith _ _) eqn:E; [|reflexivity].
  apply endswith_inv in E. destruct E as [a E].
  apply (f_equal PyStr.last_char) in E.
  unfold estimate_suffix in E. rewrite !last_char_app in E. discriminate.
Qed.

Lemma estimate_cols_of_pairs : forall geos,
    filter (PyStr.endswith estimate_suffix) (flat_map pair_columns geos)
    = map (fun g => g ++ estimate_suffix) geos.
Proof.
  induction geos as [|g geos IH]; [reflexivity|].
  cbn [flat_map pair_columns app filter map].
  rewrite endswith_app, margin_is_no_estimate, IH. reflexivity.
Qed.

Lemma extract_records : forall year df median_row records,
    for_each (record_for year df median_row) (estimate_cols df) = Ok records ->
    Forall2
      (fun col r =>
         mr_year r = year
         /\ mr_geo_name r = PyStr.split_head "!!" col
         /\ cell_value (cell_at (columns df) median_row col) = Ok (mr_value r))
      (estimate_cols df) records.
Proof.
  intros y df r records H. apply for_each_inv in H.
  induction H as [|col rec cols recs Hrec _ IH]; constructor; auto.
  unfold record_for in Hrec.
  destruct (cell_value (cell_at (columns df) r col)); simpl in Hrec; [|discriminate].
  inversion Hrec; subst. auto.
Qed.

(** C5, as the code has it.  Take a table whose columns are the label column
    followed by [N >= 1] pairs "<Geo>!!Estimate", "<Geo>!!Margin of Error",
    with a row labelled "Median", and let every estimate cell of the first
    such row be missing or text that [float] accepts.  Then the extraction
    gives exactly [N] records, one per estimate column and in their order:
    each has the year asked for, the value of its estimate cell, and for
    name the text of the column before its first "!!", which is "<Geo>"
    itself when "<Geo>" brings no separator of its own.  A table without any
    "!!Estimate" column gives no records but an exception. *)
Theorem extract_estimate_pairs :
  (forall (year : Z) (df : DataFrame) (geos : list string)
          (median_row : list cell) (others : list (list cell)),
      columns df = label_col :: flat_map pair_columns geos ->
      geos <> [] ->
      median_rows df = median_row :: others ->
      (forall g, In g geos ->
         exists v,
           cell_value (cell_at (columns df) median_row (g ++ estimate_suffix)) = Ok v) ->
      exists records,
        extract year df = Ok records
        /\ List.length records = List.length geos
        /\ Forall2
             (fun g r =>
                mr_year r = year
                /\ mr_geo_name r = PyStr.split_head "!!" (g ++ estimate_suffix)
                /\ cell_value (cell_at (columns df) median_row (g ++ estimate_suffix))
                   = Ok (mr_value r))
             geos records
        /\ (Forall separator_free geos -> map mr_geo_name records = geos))
  /\ (forall (year : Z) (df : DataFrame),
        estimate_cols df = [] -> exists e, extract year df = Err e).
Proof.
  split.
  - intros y df geos r others Hcols Hne Hmed Hcells.
    assert (Hest : estimate_cols df = map (fun g => g ++ estimate_suffix) geos).
    { unfold estimate_cols. rewrite Hcols. cbn [filter].
      replace (PyStr.endswith estimate_suffix label_col) with false
        by (vm_compute; reflexivity).
      apply estimate_cols_of_pairs. }
    assert (Hok : exists records,
               for_each (record_for y df r) (estimate_cols df) = Ok records).
    { apply for_each_ok. intros col Hin. rewrite Hest in Hin.
      apply in_map_iff in Hin. destruct Hin as [g [<- Hg]].
      destruct (Hcells g Hg) as [v Hv]. unfold record_for. rewrite Hv.
      simpl. eauto. }
    destruct Hok as [records Hrec]. exists records.
    assert (Hall := extract_records _ _ _ _ Hrec). rewrite Hest in Hall.
    assert (Hall' : Forall2
             (fun g r0 =>
                mr_year r0 = y
                /\ mr_geo_name r0 = PyStr.split_head "!!" (g ++ estimate_suffix)
                /\ cell_value (cell_at (columns df) r (g ++ estimate_suffix))
                   = Ok (mr_value r0))
             geos records).
    { clear - Hall. revert records Hall.
      induction geos as [|g geos IH]; intros records Hall;
        inversion Hall; subst; constructor; auto. }
    split; [|split; [|split]].
    + assert (Hhas : has_column df label_col = true).
      { unfold has_column. rewrite Hcols. cbn [existsb].
        rewrite String.eqb_refl. reflexivity. }
      unfold extract, select_median_row. rewrite Hhas, Hmed. cbn [negb bind].
      destruct (estimate_cols df) eqn:E; [|exact Hrec].
      destruct geos; [congruence|discriminate].
    + symmetry. exact (Forall2_length_eq _ _ _ Hall').
    + exact Hall'.
    + intros Hfree. clear - Hall' Hfree.
      induction Hall' as [|g rec geos recs [_ [Hn _]] _ IH]; [reflexivity|].
      inversion Hfree; subst. simpl. rewrite IH by assumption. f_equal.
      rewrite Hn. unfold estimate_suffix.
      change "!!Estimate" with ("!!" ++ "Estimate").
      apply split_head_own_separator. assumption.
  - intros y df H. unfold extract.
    destruct (negb (has_column df label_col)); [eauto|].
    destruct (select_median_row df); simpl; [|eauto].
    rewrite H. eauto.
Qed.

Lemma extract_estimate_pairs_witness :
  exists records,
    extract 2020 Samples.income_2020 = Ok records
    /\ List.length records = 2%nat
    /\ map mr_geo_name records = Samples.two_counties.
Proof.
  destruct extract_estimate_pairs as [H _].
  destruct (H 2020 Samples.income_2020 Samples.two_counties
              [ CStr "    Median household income in the past 12 months";
                CStr "81,169"; CStr "+/-1,012"; CStr "59,584"; CStr "+/-1,693" ]
              [])
    as [records [Hr [Hlen [_ Hnames]]]].
  - reflexivity.
  - discriminate.
  - reflexivity.
  - intros g [<-|[<-|[]]]; vm_compute; eauto.
  - exists records. split; [exact Hr|]. split; [exact Hlen|].
    apply Hnames. repeat constructor.
Defined.

(** C5 as the specification words it fails: the rent table has a row
    labelled "Median" and two estimate/margin pairs, yet the dash in its
    second estimate cell makes the extraction raise, and no record is
    emitted. *)
Lemma suppressed_estimate_emits_nothing :
  columns Samples.rent_suppressed
  = label_col :: flat_map pair_columns Samples.two_counties
  /\ (exists median_row others,
         median_rows Samples.rent_suppressed = median_row :: others)
  /\ extract 2020 Samples.rent_suppressed = Err ValueError
  /\ ~ (exists records,
           extract 2020 Samples.rent_suppressed = Ok records
           /\ List.length records = 2%nat).
Proof.
  split; [reflexivity|]. split; [vm_compute; eauto|].
  split; [vm_compute; reflexivity|].
  intros [records [H _]]. vm_compute in H. discriminate.
Qed.

End TableExtractor.


(** ** The reconciler of load_acs.py *)

Section Reconciler.

Import LoadAcs.

Lemma key_eqb_eq : forall a b, key_eqb a b = true <-> a = b.
Proof.
  intros [g y] [g' y']. unfold key_eqb. simpl.
  rewrite andb_true_iff, String.eqb_eq, Z.eqb_eq. split.
  - intros [-> ->]. reflexivity.
  - intros H. inversion H. auto.
Qed.

Lemma merge_inner_In {A B : Type} (ka : A -> string * Z) (kb : B -> string * Z) :
  forall left right l r,
    In (l, r) (merge_inner ka kb left right)
    <-> In l left /\ In r right /\ ka l = kb r.
Proof.
  intros left right l r. unfold merge_inner.
  rewrite in_flat_map. split.
  - intros [x [Hx H]]. apply in_map_iff in H. destruct H as [y [E Hy]].
    inversion E; subst. apply filter_In in Hy. destruct Hy as [Hy K].
    apply key_eqb_eq in K. auto.
  - intros [Hl [Hr K]]. exists l. split; [exact Hl|].
    apply in_map. apply filter_In. split; [exact Hr|].
    apply key_eqb_eq. exact K.
Qed.

(** The rows of one year after the two merges: one for every choice of an
    income, a home-value and a rent record of the same geography and year. *)
Lemma merge_tables_In : forall income home_value rent m,
    In m (merge_tables income home_value rent)
    <-> exists i h r,
        In i income /\ In h home_value /\ In r rent
        /\ mr_key i = mr_key h /\ mr_key i = mr_key r
        /\ m = {| year := mr_year i;
                  geo_name := mr_geo_name i;
                  B19013 := to_column (mr_value i);
                  B25077 := to_column (mr_value h);
                  B25064 := to_column (mr_value r) |}.
Proof.
  intros income home_value rent m. unfold merge_tables.
  rewrite in_map_iff. split.
  - intros [[[i h] r] [E H]]. simpl in E.
    apply merge_inner_In in H. destruct H as [H1 [Hr K2]].
    apply merge_inner_In in H1. destruct H1 as [Hi [Hh K1]].
    exists i, h, r. simpl in K2. auto 10.
  - intros [i [h [r [Hi [Hh [Hr [K1 [K2 E]]]]]]]].
    exists (i, h, r). split; [symmetry; exact E|].
    apply merge_inner_In. split; [|auto].
    apply merge_inner_In. auto.
Qed.

Lemma extract_year : forall year df records r,
    extract year df = Ok records -> In r records -> mr_year r = year.
Proof.
  intros y df records r H Hin. unfold extract in H.
  destruct (negb (has_column df label_col)); [discriminate|].
  destruct (select_median_row df) as [row|]; cbn [bind] in H; [|discriminate].
  destruct (estimate_cols df) as [|c cs] eqn:E; [discriminate|].
  change (for_each (record_for y df row) (c :: cs) = Ok records) in H.
  rewrite <- E in H. apply extract_records in H. clear E.
  induction H as [|col rec cols recs [Hy _] _ IH]; [contradiction|].
  destruct Hin as [<-|Hin]; auto.
Qed.

Lemma load_single_table_year : forall w year table_id records r,
    _load_single_table w year table_id = Ok records ->
    In r records -> mr_year r = year.
Proof.
  intros w y t records r H. unfold _load_single_table in H.
  destruct (_find_table_file w y t); simpl in H; [|discriminate].
  eapply extract_year; eauto.
Qed.

(** A row of the concatenated frames comes from the merge of the three
    tables of a requested year. *)
Lemma frames_In : forall w years frames m,
    for_each (load_year w) years = Ok frames ->
    In m (List.concat frames) ->
    exists y income home_value rent,
      In y years
      /\ _load_single_table w y "B19013" = Ok income
      /\ _load_single_table w y "B25077" = Ok home_value
      /\ _load_single_table w y "B25064" = Ok rent
      /\ In m (merge_tables income home_value rent).
Proof.
  intros w years frames m H Hin. apply for_each_inv in H.
  apply in_concat in Hin. destruct Hin as [frame [Hf Hm]].
  induction H as [|y fr ys frs Hy _ IH]; [contradiction|].
  destruct Hf as [->|Hf].
  - unfold load_year in Hy.
    destruct (_load_single_table w y "B19013") as [i|] eqn:Ei;
      simpl in Hy; [|discriminate].
    destruct (_load_single_table w y "B25077") as [h|] eqn:Eh;
      simpl in Hy; [|discriminate].
    destruct (_load_single_table w y "B25064") as [r|] eqn:Er;
      simpl in Hy; [|discriminate].
    inversion Hy; subst. exists y, i, h, r. simpl. repeat split; auto.
  - destruct (IH Hf) as [y' [i [h [r [Hin H']]]]].
    exists y', i, h, r. simpl. tauto.
Qed.

(** What a row of the final table is made of. *)
Lemma output_row : forall w years out a,
    load_acs_affordability w years = Ok out ->
    In a out ->
    exists income home_value rent i h r,
      In (a_year a) (chosen_years years)
      /\ _load_single_table w (a_year a) "B19013" = Ok income
      /\ _load_single_table w (a_year a) "B25077" = Ok home_value
      /\ _load_single_table w (a_year a) "B25064" = Ok rent
      /\ In i income /\ In h home_value /\ In r rent
      /\ mr_geo_name i = a_geo_name a
      /\ mr_geo_name h = a_geo_name a
      /\ mr_geo_name r = a_geo_name a
      /\ isin target_names (a_geo_name a) = true
      /\ a = with_ratios
               {| year := a_year a;
                  geo_name := a_geo_name a;
                  B19013 := to_column (mr_value i);
                  B25077 := to_column (mr_value h);
                  B25064 := to_column (mr_value r) |}.
Proof.
  intros w years out a H Hin. unfold load_acs_affordability in H.
  cbv zeta in H.
  destruct (for_each (load_year w) (chosen_years years)) as [frames|] eqn:F;
    simpl in H; [|discriminate].
  assert (Hall : exists all_years,
             concat_frames frames = Ok all_years /\ all_years = List.concat frames).
  { unfold concat_frames in *. destruct frames; [discriminate|]. eauto. }
  destruct Hall as [all_years [Hc Hall]]. rewrite Hc in H. simpl in H.
  inversion H; subst out. clear H.
  apply in_map_iff in Hin. destruct Hin as [m [<- Hm]].
  apply filter_In in Hm. destruct Hm as [Hm Hgeo]. rewrite Hall in Hm.
  destruct (frames_In _ _ _ _ F Hm) as [y [income [hv [rent [Hy [Hi [Hh [Hr Hmerge]]]]]]]].
  apply merge_tables_In in Hmerge.
  destruct Hmerge as [i [h [r [Ii [Ih [Ir [K1 [K2 ->]]]]]]]].
  unfold mr_key in K1, K2. inversion K1. inversion K2.
  pose proof (load_single_table_year _ _ _ _ _ Hi Ii) as Yi.
  simpl in *. rewrite Yi in *.
  exists income, hv, rent, i, h, r. repeat split; auto.
Qed.

Lemma for_each_In {A B : Type} (f : A -> result B) : forall l bs a,
    for_each f l = Ok bs -> In a l -> exists b, f a = Ok b /\ In b bs.
Proof.
  intros l bs a H Hin. apply for_each_inv in H.
  induction H as [|x b xs bs' Hx _ IH]; [contradiction|].
  destruct Hin as [->|Hin].
  - exists b. split; [exact Hx|left; reflexivity].
  - destruct (IH Hin) as [b' [Hb Hin']]. exists b'. split; [exact Hb|right; exact Hin'].
Qed.

(** The join loses nothing else: a geography of the allow-list that the
    three tables of a requested year all have is in the final table. *)
Lemma reconciled_complete : forall w years out y g income home_value rent,
    load_acs_affordability w years = Ok out ->
    In y (chosen_years years) ->
    _load_single_table w y "B19013" = Ok income ->
    _load_single_table w y "B25077" = Ok home_value ->
    _load_single_table w y "B25064" = Ok rent ->
    In g (map mr_geo_name income) ->
    In g (map mr_geo_name home_value) ->
    In g (map mr_geo_name rent) ->
    In g target_names ->
    exists a, In a out /\ a_year a = y /\ a_geo_name a = g.
Proof.
  intros w years out y g income hv rent Hload Hy Hi Hh Hr Gi Gh Gr Ht.
  unfold load_acs_affordability in Hload. cbv zeta in Hload.
  destruct (for_each (load_year w) (chosen_years years)) as [frames|] eqn:F;
    simpl in Hload; [|discriminate].
  destruct (for_each_In _ _ _ _ F Hy) as [frame [Hframe Hin]].
  unfold load_year in Hframe. rewrite Hi, Hh, Hr in Hframe. simpl in Hframe.
  inversion Hframe; subst frame. clear Hframe.
  unfold concat_frames in Hload. destruct frames as [|fr frs]; [contradiction|].
  cbn [bind] in Hload. inversion Hload; subst out. clear Hload.
  apply in_map_iff in Gi. destruct Gi as [i [Ei Ii]].
  apply in_map_iff in Gh. destruct Gh as [h [Eh Ih]].
  apply in_map_iff in Gr. destruct Gr as [r [Er Ir]].
  pose proof (load_single_table_year _ _ _ _ _ Hi Ii) as Yi.
  pose proof (load_single_table_year _ _ _ _ _ Hh Ih) as Yh.
  pose proof (load_single_table_year _ _ _ _ _ Hr Ir) as Yr.
  exists (with_ratios
            {| year := mr_year i; geo_name := mr_geo_name i;
               B19013 := to_column (mr_value i);
               B25077 := to_column (mr_value h);
               B25064 := to_column (mr_value r) |}).
  split; [|simpl; auto].
  apply in_map. apply filter_In. split.
  - apply (proj2 (in_concat (fr :: frs) _)).
    exists (merge_tables income hv rent). split; [exact Hin|].
    apply merge_tables_In. exists i, h, r. unfold mr_key.
    repeat split; auto; congruence.
  - cbn [geo_name]. rewrite Ei. unfold isin.
    apply (proj2 (existsb_exists _ target_names)).
    exists g. split; [exact Ht|apply String.eqb_refl].
Qed.

(** C7.  When one of the three tables of a year loads without a geography,
    no row of the final table has that year and that geography, whatever
    the other two tables hold: the merges are inner joins on year and
    geography. *)
Theorem reconciler_inner_join :
  forall (w : World) (years : option (list Z)) (out : list AffordabilityRecord)
         (y : Z) (g : string),
    load_acs_affordability w years = Ok out ->
    (exists table_id records,
        In table_id ["B19013"; "B25077"; "B25064"]
        /\ _load_single_table w y table_id = Ok records
        /\ ~ In g (map mr_geo_name records)) ->
    forall a, In a out -> ~ (a_year a = y /\ a_geo_name a = g).
Proof.
  intros w years out y g Hload [t [records [Ht [Hrec Hout]]]] a Ha [Hy Hg].
  destruct (output_row _ _ _ _ Hload Ha)
    as (income & hv & rent & i & h & r & _ & Hi & Hh & Hr & Ii & Ih & Ir & Gi & Gh & Gr & _).
  rewrite Hy in *. apply Hout. rewrite <- Hg.
  destruct Ht as [<-|[<-|[<-|[]]]].
  - rewrite Hi in Hrec. inversion Hrec; subst. rewrite <- Gi. apply in_map, Ii.
  - rewrite Hh in Hrec. inversion Hrec; subst. rewrite <- Gh. apply in_map, Ih.
  - rewrite Hr in Hrec. inversion Hrec; subst. rewrite <- Gr. apply in_map, Ir.
Qed.

Lemma reconciler_inner_join_witness :
  let w := Samples.acs_world Samples.income_2020 Samples.home_value_2020
             Samples.rent_hennepin_only in
  let g := "Otter Tail County, Minnesota" in
  (exists income home_value,
      _load_single_table w 2020 "B19013" = Ok income
      /\ _load_single_table w 2020 "B25077" = Ok home_value
      /\ In g (map mr_geo_name income) /\ In g (map mr_geo_name home_value))
  /\ exists out,
      load_acs_affordability w (Some [2020]) = Ok out
      /\ out <> []
      /\ forall a, In a out -> ~ (a_year a = 2020 /\ a_geo_name a = g).
Proof.
  intros w g. split.
  - eexists. eexists. split; [vm_compute; reflexivity|].
    split; [vm_compute; reflexivity|]. simpl. auto.
  - eexists. split; [vm_compute; reflexivity|]. split; [discriminate|].
    apply (reconciler_inner_join w (Some [2020]) _ 2020 g).
    + vm_compute. reflexivity.
    + exists "B25064". eexists. split; [simpl; auto|].
      split; [vm_compute; reflexivity|].
      simpl. intros [H|[]]. discriminate.
Defined.

(** C9.  Every row of the final table has for geography one of the names of
    [TARGET_GEOS], character for character. *)
Theorem allow_list_filter :
  forall (w : World) (years : option (list Z)) (out : list AffordabilityRecord)
         (a : AffordabilityRecord),
    load_acs_affordability w years = Ok out ->
    In a out ->
    (exists key, In (key, a_geo_name a) Config.TARGET_GEOS)
    /\ In (a_geo_name a)
          [ "Fergus Falls city, Minnesota"; "Otter Tail County, Minnesota";
            "Minneapolis city, Minnesota"; "Hennepin County, Minnesota" ].
Proof.
  intros w years out a Hload Ha.
  destruct (output_row _ _ _ _ Hload Ha)
    as (income & hv & rent & i & h & r & _ & _ & _ & _ & _ & _ & _ & _ & _ & _ & Hin & _).
  unfold isin in Hin. apply existsb_exists in Hin.
  destruct Hin as [name [Hname E]]. apply String.eqb_eq in E. subst name.
  split; [|exact Hname].
  unfold target_names in Hname. apply in_map_iff in Hname.
  destruct Hname as [[key name] [E Hk]]. simpl in E. subst name. eauto.
Qed.

Lemma allow_list_filter_witness :
  let w := Samples.acs_world
             (Samples.with_state "Median household income" "71,306" "81,169")
             (Samples.with_state "Median value (dollars)" "235,700" "300,600")
             (Samples.with_state "Median gross rent" "1,010" "1,202") in
  (exists merged,
      load_year w 2020 = Ok merged /\ In "Minnesota" (map geo_name merged))
  /\ exists out,
      load_acs_affordability w (Some [2020]) = Ok out
      /\ out <> []
      /\ forall a, In a out ->
           In (a_geo_name a)
              [ "Fergus Falls city, Minnesota"; "Otter Tail County, Minnesota";
                "Minneapolis city, Minnesota"; "Hennepin County, Minnesota" ].
Proof.
  intros w. split.
  - eexists. split; [vm_compute; reflexivity|]. simpl. auto.
  - eexists. split; [vm_compute; reflexivity|]. split; [discriminate|].
    intros a Ha.
    refine (proj2 (allow_list_filter w (Some [2020]) _ a _ Ha)).
    vm_compute. reflexivity.
Defined.

(** *** The two ratios *)

Lemma ratio_formulas : forall w years out a,
    load_acs_affordability w years = Ok out ->
    In a out ->
    price_to_income a
    = Float64.div (median_home_value a) (median_household_income a)
    /\ rent_to_income a
       = Float64.div (Float64.mul (median_gross_rent a) (Float64.of_int 12))
           (median_household_income a).
Proof.
  intros w years out a Hload Ha.
  destruct (output_row _ _ _ _ Hload Ha)
    as (income & hv & rent & i & h & r & _ & _ & _ & _ & _ & _ & _ & _ & _ & _ & _ & E).
  assert (Hm : exists m, a = with_ratios m) by (eexists; exact E).
  clear E. destruct Hm as [m ->]. split; reflexivity.
Qed.

Lemma div_missing_denominator : forall x, Float64.div x Float64.nan = Float64.nan.
Proof. destruct x; reflexivity. Qed.

(** A quotient by zero is missing only for a zero or missing numerator;
    any other numerator gives an infinity. *)
Lemma div_zero_denominator : forall x s,
    Float64.div x (S754_zero s)
    = match x with
      | S754_nan | S754_zero _ => Float64.nan
      | S754_infinity sx | S754_finite sx _ _ => Float64.inf (xorb sx s)
      end.
Proof. destruct x; reflexivity. Qed.

Lemma ratios_missing_income : forall w years out a,
    load_acs_affordability w years = Ok out ->
    In a out ->
    Float64.isna (median_household_income a) = true ->
    Float64.isna (price_to_income a) = true
    /\ Float64.isna (rent_to_income a) = true.
Proof.
  intros w years out a Hload Ha Hna.
  destruct (ratio_formulas _ _ _ _ Hload Ha) as [-> ->].
  destruct (median_household_income a); try discriminate.
  rewrite !div_missing_denominator. auto.
Qed.

(** The example of the specification: 50000, 200000 and 1000 give 4.0 and
    0.24; a missing income gives two missing ratios. *)
Lemma ratios_example :
  (exists a,
      load_acs_affordability
        (Samples.acs_world (Samples.income_of (CStr "50000"))
           Samples.home_value_200000 Samples.rent_1000) (Some [2020]) = Ok [a]
      /\ Some (price_to_income a) = Float64.py_float "4.0"
      /\ Some (rent_to_income a) = Float64.py_float "0.24")
  /\ (exists a,
         load_acs_affordability
           (Samples.acs_world (Samples.income_of CNull)
              Samples.home_value_200000 Samples.rent_1000) (Some [2020]) = Ok [a]
         /\ Float64.isna (price_to_income a) = true
         /\ Float64.isna (rent_to_income a) = true).
Proof.
  split; eexists; (split; [vm_compute; reflexivity|]);
    split; vm_compute; reflexivity.
Qed.

(** C1 at an income of zero.  With a home value of 200000 and a rent of
    1000 the table loads without an exception, and both ratios are plus
    infinity: neither missing nor zero. *)
Theorem zero_income_ratios_are_infinite :
  exists a,
    load_acs_affordability
      (Samples.acs_world (Samples.income_of (CStr "0"))
         Samples.home_value_200000 Samples.rent_1000) (Some [2020]) = Ok [a]
    /\ Float64.is_zero (median_household_income a) = true
    /\ price_to_income a = Float64.inf false
    /\ rent_to_income a = Float64.inf false
    /\ Float64.isna (price_to_income a) = false
    /\ Float64.isna (rent_to_income a) = false.
Proof.
  eexists. split; [vm_compute; reflexivity|].
  repeat split; vm_compute; reflexivity.
Qed.


End Reconciler.



(** ** The benchmark extractor of load_hud.py *)

Section BenchmarkExtractor.

Import LoadHud.

Variable pr : Printer.

(** *** Expansion of one row *)

Lemma expand_geo_names : forall row records,
    _expand_to_acs_geos pr row = Ok records ->
    Forall (fun r => In (rec_geo_name r) (otter_tail_geos ++ hennepin_geos)%list)
           records.
Proof.
  intros row records H. unfold _expand_to_acs_geos in H.
  destruct (row_get row "year") as [y|]; [|discriminate].
  destruct (row_get row "hud_fmr_2br") as [v|]; [|discriminate].
  inversion H; subst. clear H. apply Forall_app. split.
  - destruct (PyStr.contains "otter tail" _); simpl;
      repeat constructor; simpl; tauto.
  - destruct (PyStr.contains "hennepin" _); simpl;
      repeat constructor; simpl; tauto.
Qed.

Lemma expand_returns : forall row y v,
    row_get row "year" = Some y ->
    row_get row "hud_fmr_2br" = Some v ->
    exists records, _expand_to_acs_geos pr row = Ok records.
Proof.
  intros row y v Hy Hv. unfold _expand_to_acs_geos. rewrite Hy, Hv. eauto.
Qed.


End BenchmarkExtractor.


(** *** Column selection *)

Section ColumnSelection.

Import LoadHud.

Lemma has_label_In : forall c cols, existsb (String.eqb c) cols = true <-> In c cols.
Proof.
  intros c cols. rewrite existsb_exists. split.
  - intros [x [Hx E]]. apply String.eqb_eq in E. subst. exact Hx.
  - intros H. exists c. split; [exact H|apply String.eqb_refl].
Qed.

Lemma select_columns_In : forall cols g f,
    select_columns cols = Selected g f -> In g cols /\ In f cols.
Proof.
  intros cols g f. unfold select_columns.
  destruct (existsb (String.eqb "areaname") cols) eqn:Ea;
    destruct (existsb (String.eqb "fmr_2") cols) eqn:Ef; cbn [andb].
  1: { intros H. inversion H; subst. split; apply has_label_In; assumption. }
  all: destruct (filter geo_keyword cols) as [|g' gs] eqn:Fg; [discriminate|];
    destruct (filter fmr_keyword cols) as [|f' fs] eqn:Ff; [discriminate|];
    intros H; inversion H; subst;
    split;
    [ assert (Hg : In g (filter geo_keyword cols)) by (rewrite Fg; left; reflexivity);
      apply filter_In in Hg; tauto
    | assert (Hf : In f (filter fmr_keyword cols)) by (rewrite Ff; left; reflexivity);
      apply filter_In in Hf; tauto ].
Qed.

End ColumnSelection.

(** *** The rows of a year and the loop over the years *)

Section YearLoop.

Import LoadHud.

Variable pr : Printer.
Variable w : World.

Lemma row_get_some : forall row key,
    has_label key row = true -> exists v, row_get row key = Some v.
Proof.
  intros row key H. unfold row_get.
  destruct (filter (fun kv => (fst kv =? key)%string) row) as [|[k v] rest] eqn:F.
  - apply filter_none in F. unfold has_label in H.
    apply existsb_exists in H. destruct H as [kv [Hin E]].
    rewrite Forall_forall in F. rewrite (F kv Hin) in E. discriminate.
  - destruct rest; eauto.
Qed.

Lemma assign_has_key : forall key v row, has_label key (assign key v row) = true.
Proof.
  intros key v row. unfold assign, has_label.
  destruct (existsb (fun kv => (fst kv =? key)%string) row) eqn:E.
  - apply existsb_exists in E. destruct E as [kv [Hin E]].
    apply existsb_exists. exists (key, v). split.
    + apply in_map_iff. exists kv. rewrite E. auto.
    + apply String.eqb_refl.
  - rewrite existsb_app. simpl. rewrite String.eqb_refl. apply orb_true_r.
Qed.

Lemma assign_keeps_label : forall key v k row,
    has_label k row = true -> has_label k (assign key v row) = true.
Proof.
  intros key v k row H. unfold assign, has_label in *.
  apply existsb_exists in H. destruct H as [kv [Hin E]].
  destruct (existsb (fun kv0 => (fst kv0 =? key)%string) row).
  - apply existsb_exists.
    exists (if (fst kv =? key)%string then (key, v) else kv). split.
    + apply in_map_iff. exists kv. auto.
    + destruct (fst kv =? key)%string eqn:K; [|exact E].
      apply String.eqb_eq in K. rewrite <- K. exact E.
  - rewrite existsb_app, orb_true_iff. left.
    apply existsb_exists. eauto.
Qed.

Lemma rename_introduces : forall old new row,
    has_label old row = true -> has_label new (rename old new row) = true.
Proof.
  intros old new row H. unfold rename, has_label in *.
  apply existsb_exists in H. destruct H as [kv [Hin E]].
  apply existsb_exists. exists (new, snd kv). split.
  - apply in_map_iff. exists kv. rewrite E. auto.
  - apply String.eqb_refl.
Qed.

(** No row of the sub-table lacks its year or its rent, so the expansion
    of such a row never raises. *)
Lemma sub_frame_row_total : forall df g f year sub row,
    sub_frame df g f year = Ok sub ->
    In row sub ->
    exists records, _expand_to_acs_geos pr row = Ok records.
Proof.
  intros df g f y sub row H Hin. unfold sub_frame in H.
  destruct (forallb (has_column df) [g; f; "countyname"]); [|discriminate].
  inversion H; subst. clear H.
  apply in_map_iff in Hin. destruct Hin as [r [<- _]].
  unfold sub_row.
  set (renamed := rename f "hud_fmr_2br" _).
  assert (Hv : has_label "hud_fmr_2br" renamed = true).
  { apply rename_introduces. unfold has_label. cbn [map existsb fst].
    rewrite String.eqb_refl. apply orb_true_iff. right. reflexivity. }
  destruct (row_get_some _ "year" (assign_has_key "year" (CInt y) renamed)) as [vy Hy].
  destruct (row_get_some _ "hud_fmr_2br"
              (assign_keeps_label "year" (CInt y) _ _ Hv)) as [vf Hf].
  exact (expand_returns pr _ vy vf Hy Hf).
Qed.

(** The one exception a year can raise: its workbook loads and has
    plausible columns, but no "countyname" column. *)
Lemma load_one_raised : forall year e,
    load_one pr w year = Raised e ->
    e = KeyError
    /\ exists path df,
        dict_get HUD_FMR_FILES year = Some path
        /\ read_excel w path = Some df
        /\ has_column df "countyname" = false.
Proof.
  intros y e H. unfold load_one in H.
  destruct (dict_get HUD_FMR_FILES y) as [path|]; [|discriminate].
  destruct (negb (path_exists w path)); [discriminate|].
  destruct (read_excel w path) as [df|] eqn:R; [|discriminate].
  destruct (select_columns (columns df)) as [g f| |] eqn:S; try discriminate.
  apply select_columns_In in S. destruct S as [Hg Hf].
  unfold expand_frame in H.
  destruct (sub_frame df g f y) as [sub|e'] eqn:Sub; cbn [bind] in H.
  - destruct (for_each (_expand_to_acs_geos pr) sub) as [per_row|e'] eqn:F.
    + destruct (List.concat per_row); discriminate.
    + apply for_each_err in F. destruct F as [row [Hin Hrow]].
      destruct (sub_frame_row_total _ _ _ _ _ _ Sub Hin) as [records Hrec].
      congruence.
  - inversion H; subst e'. clear H. unfold sub_frame in Sub.
    destruct (forallb (has_column df) [g; f; "countyname"]) eqn:A; [discriminate|].
    inversion Sub; subst. split; [reflexivity|].
    exists path, df. repeat split; auto.
    cbn [forallb] in A. unfold has_column in A at 1 2.
    rewrite (proj2 (has_label_In g _) Hg), (proj2 (has_label_In f _) Hf) in A.
    rewrite andb_true_r in A. exact A.
Qed.

Lemma load_one_mapped : forall year records,
    load_one pr w year = Mapped records ->
    records <> []
    /\ Forall (fun r => In (rec_geo_name r) (otter_tail_geos ++ hennepin_geos)%list)
              records.
Proof.
  intros y records H. unfold load_one in H.
  destruct (dict_get HUD_FMR_FILES y) as [path|]; [|discriminate].
  destruct (negb (path_exists w path)); [discriminate|].
  destruct (read_excel w path) as [df|]; [|discriminate].
  destruct (select_columns (columns df)) as [g f| |]; try discriminate.
  unfold expand_frame in H.
  destruct (sub_frame df g f y) as [sub|]; cbn [bind] in H; [|discriminate].
  destruct (for_each (_expand_to_acs_geos pr) sub) as [per_row|] eqn:F; [|discriminate].
  destruct (List.concat per_row) as [|r rs] eqn:C; [discriminate|].
  inversion H; subst records. clear H. split; [discriminate|].
  rewrite <- C. apply Forall_forall. intros x Hx.
  apply in_concat in Hx. destruct Hx as [l [Hl Hx]].
  apply for_each_inv in F. clear C.
  induction F as [|row recs rows' per' Hrow _ IH]; [contradiction|].
  destruct Hl as [->|Hl]; [|auto].
  apply expand_geo_names in Hrow. rewrite Forall_forall in Hrow. auto.
Qed.

Lemma year_fails_skipped : forall year event,
    year_fails w year event -> load_one pr w year = Skipped [event].
Proof.
  intros y event H. unfold load_one.
  destruct H as [H|path H E|path H E R|path df H E R S|path df H E R S];
    rewrite H; try rewrite E; try rewrite R; try rewrite S; reflexivity.
Qed.

(** What was printed before the loop stays in front, and does not change
    what the loop computes. *)
Lemma loop_printed : forall years frames printed,
    loop pr w years frames printed
    = ((printed ++ fst (loop pr w years frames []))%list,
       snd (loop pr w years frames [])).
Proof.
  induction years as [|y ys IH]; intros frames printed; simpl.
  - rewrite app_nil_r. reflexivity.
  - destruct (load_one pr w y) as [l|records|e]; simpl.
    + rewrite (IH frames (printed ++ l)%list), (IH frames l).
      simpl. rewrite app_assoc. reflexivity.
    + apply IH.
    + rewrite app_nil_r. reflexivity.
Qed.

Lemma loop_app : forall before after frames printed,
    loop pr w (before ++ after) frames printed
    = match loop pr w before frames printed with
      | (printed', Ok frames') => loop pr w after frames' printed'
      | (printed', Err e) => (printed', Err e)
      end.
Proof.
  induction before as [|y ys IH]; intros after frames printed; simpl.
  - reflexivity.
  - destruct (load_one pr w y); auto.
Qed.

(** A skipped year leaves the outcome of the loop as it is without that
    year, and what it printed is in the log of any run that gets to it. *)
Lemma loop_skip : forall before year after l frames printed,
    load_one pr w year = Skipped l ->
    snd (loop pr w (before ++ year :: after) frames printed)
    = snd (loop pr w (before ++ after) frames printed)
    /\ (forall out,
          snd (loop pr w (before ++ year :: after) frames printed) = Ok out ->
          incl l (fst (loop pr w (before ++ year :: after) frames printed))).
Proof.
  intros before y after l frames printed H.
  rewrite !loop_app.
  destruct (loop pr w before frames printed) as [printed' [frames'|e]].
  - simpl. rewrite H.
    rewrite (loop_printed after frames' (printed' ++ l)%list).
    rewrite (loop_printed after frames' printed'). simpl.
    split; [reflexivity|]. intros _ _ x Hx.
    apply in_or_app. left. apply in_or_app. right. exact Hx.
  - simpl. split; [reflexivity|]. discriminate.
Qed.

Lemma loop_frames : forall (P : list HudRecord -> Prop) years frames printed out,
    Forall P frames ->
    (forall y records, In y years -> load_one pr w y = Mapped records -> P records) ->
    snd (loop pr w years frames printed) = Ok out ->
    Forall P out.
Proof.
  intros P. induction years as [|y ys IH]; intros frames printed out HF HP H; simpl in H.
  - inversion H; subst. exact HF.
  - destruct (load_one pr w y) as [l|records|e] eqn:L; simpl in H.
    + eapply IH; eauto. intros; eapply HP; eauto. right; assumption.
    + eapply IH; [| |exact H].
      * apply Forall_app. split; [exact HF|]. repeat constructor.
        eapply HP; [left; reflexivity|exact L].
      * intros; eapply HP; eauto. right; assumption.
    + discriminate.
Qed.


Lemma load_hud_fmr_eq : forall years,
    load_hud_fmr pr w years
    = (fst (loop pr w (chosen_years years) [] []),
       frames <- snd (loop pr w (chosen_years years) [] []) ;; Ok (result_frame frames)).
Proof.
  intros years. unfold load_hud_fmr.
  destruct (loop pr w (chosen_years years) [] []); reflexivity.
Qed.

End YearLoop.

(** *** The years of a call *)

Section Years.

Import LoadHud.

Variable pr : Printer.
Variable w : World.


(** The failures the loop over the years takes care of.  A year whose
    path is not configured, whose file is not there, whose workbook cannot
    be read, or whose workbook has no plausible geography or rent column,
    is skipped: it raises nothing, the call gives the table or the
    exception it gives without that year, and its line is in what a call
    that returns has printed. *)
Theorem failed_year_is_isolated :
  forall (before after : list Z) (year : Z) (event : log_event),
    year_fails w year event ->
    load_one pr w year = Skipped [event]
    /\ snd (load_hud_fmr pr w (Some (before ++ year :: after)%list))
       = snd (load_hud_fmr pr w (Some (before ++ after)%list))
    /\ (forall df,
          snd (load_hud_fmr pr w (Some (before ++ year :: after)%list)) = Ok df ->
          In event (fst (load_hud_fmr pr w (Some (before ++ year :: after)%list)))).
Proof.
  intros before after y event H.
  pose proof (year_fails_skipped pr w y event H) as Hl.
  split; [exact Hl|].
  rewrite !load_hud_fmr_eq. cbn [fst snd chosen_years].
  destruct (loop_skip pr w before y after _ [] [] Hl) as [E Hlog].
  split; [rewrite E; reflexivity|].
  intros df Hdf.
  destruct (snd (loop pr w (before ++ y :: after) [] [])) as [frames|e] eqn:R;
    [|discriminate].
  apply (Hlog frames eq_refl). left. reflexivity.
Qed.


End Years.


(** *** Runs on the sample workbooks *)


Lemma failed_year_is_isolated_witness :
  LoadHud.load_one Samples.printer Samples.hud_mixed 2014
  = LoadHud.Skipped [LoadHud.ReadFailed 2014 "2014/FY2014_4050_RevFinal.xls"]
  /\ snd (LoadHud.load_hud_fmr Samples.printer Samples.hud_mixed (Some [2013; 2014; 2015]))
     = snd (LoadHud.load_hud_fmr Samples.printer Samples.hud_mixed (Some [2013; 2015]))
  /\ (forall df,
        snd (LoadHud.load_hud_fmr Samples.printer Samples.hud_mixed
               (Some [2013; 2014; 2015])) = Ok df ->
        In (LoadHud.ReadFailed 2014 "2014/FY2014_4050_RevFinal.xls")
           (fst (LoadHud.load_hud_fmr Samples.printer Samples.hud_mixed
                   (Some [2013; 2014; 2015])))).
Proof.
  apply (failed_year_is_isolated Samples.printer Samples.hud_mixed [2013] [2015] 2014).
  apply LoadHud.fails_unreadable; reflexivity.
Defined.

(** C2 at a workbook without a county column.  The workbook of 2013 loads
    and has a geography and a rent column, but no "countyname" column; the
    selection of the three columns is outside the [try] of the loop.
    Alone, 2014 gives its four records; asked for together with 2013,
    before it or after it, the call raises [KeyError], prints no line for
    2013 and returns no record of 2014: the failure of one year is neither
    logged nor skipped. *)
Lemma missing_county_column_propagates :
  (exists df,
      snd (LoadHud.load_hud_fmr Samples.printer Samples.hud_county_lost (Some [2014]))
      = Ok df
      /\ List.length (LoadHud.hud_rows df) = 4%nat)
  /\ LoadHud.load_one Samples.printer Samples.hud_county_lost 2013
     = LoadHud.Raised KeyError
  /\ LoadHud.load_hud_fmr Samples.printer Samples.hud_county_lost (Some [2013; 2014])
     = ([], Err KeyError)
  /\ LoadHud.load_hud_fmr Samples.printer Samples.hud_county_lost (Some [2014; 2013])
     = ([], Err KeyError).
Proof.
  split; [eexists; split; vm_compute; reflexivity|].
  repeat split; vm_compute; reflexivity.
Qed.



(* ================================================================= *)
(** * Further properties of load_acs.py *)

Section ExtractOutcomes.

Import LoadAcs.

Lemma for_each_ext {A B : Type} (f g : A -> result B) : forall l,
    (forall a, In a l -> f a = g a) -> for_each f l = for_each g l.
Proof.
  induction l as [|a t IH]; intros H; [reflexivity|].
  simpl. rewrite (H a) by (left; reflexivity).
  rewrite IH by (intros; apply H; right; assumption). reflexivity.
Qed.

Lemma record_for_ok : forall year df row col r,
    record_for year df row col = Ok r ->
    cell_value (cell_at (columns df) row col) = Ok (mr_value r).
Proof.
  unfold record_for. intros y df row col r H.
  destruct (cell_value (cell_at (columns df) row col)); simpl in H; [|discriminate].
  inversion H; subst. reflexivity.
Qed.

Lemma select_median_row_ok : forall df,
    rows df <> [] -> exists row, select_median_row df = Ok row.
Proof.
  intros df H. unfold select_median_row.
  destruct (median_rows df); [|eauto].
  destruct (rows df); [congruence|eauto].
Qed.

Lemma select_median_row_rows : forall df row,
    select_median_row df = Ok row -> rows df <> [].
Proof.
  intros df row H E. unfold select_median_row, median_rows in H.
  rewrite E in H. simpl in H. discriminate.
Qed.


(** The extraction gives records exactly for a table with the label
    column, at least one row, at least one "!!Estimate" column, and, in the
    selected row, estimate cells that are all missing or readable. *)
Theorem extract_succeeds_iff :
  forall (year : Z) (df : DataFrame),
    (exists records, extract year df = Ok records)
    <-> (has_column df label_col = true
         /\ estimate_cols df <> []
         /\ exists row,
             select_median_row df = Ok row
             /\ forall col, In col (estimate_cols df) ->
                  exists v, cell_value (cell_at (columns df) row col) = Ok v).
Proof.
  intros y df. unfold extract. split.
  - intros [records H].
    destruct (has_column df label_col); [|discriminate]. cbn [negb] in H.
    destruct (select_median_row df) as [row|] eqn:S; cbn [bind] in H; [|discriminate].
    destruct (estimate_cols df) as [|c cs] eqn:E; [discriminate|].
    split; [reflexivity|]. split; [discriminate|].
    exists row. split; [reflexivity|]. intros col Hin.
    destruct (for_each_In _ _ _ _ H Hin) as [r [Hr _]].
    apply record_for_ok in Hr. eauto.
  - intros [Hl [Hne [row [Hs Hall]]]]. rewrite Hl, Hs. cbn [negb bind].
    destruct (estimate_cols df) as [|c cs] eqn:E; [congruence|].
    apply for_each_ok. intros col Hin.
    destruct (Hall col Hin) as [v Hv]. unfold record_for. rewrite Hv.
    simpl. eauto.
Qed.

Lemma extract_succeeds_iff_witness :
  exists records, extract 2020 Samples.income_2020 = Ok records.
Proof.
  apply (proj2 (extract_succeeds_iff 2020 Samples.income_2020)).
  split; [reflexivity|]. split; [discriminate|].
  eexists. split; [reflexivity|].
  intros col [<-|[<-|[]]]; vm_compute; eauto.
Defined.

(** Which exception the extraction raises: [KeyError] without the label
    column, whatever else the table holds; else [IndexError] without rows,
    even when there is no estimate column either; else [KeyError] without
    estimate columns; and otherwise nothing but the [ValueError] of a cell. *)
Theorem extract_error_order :
  forall (year : Z) (df : DataFrame),
    (has_column df label_col = false -> extract year df = Err KeyError)
    /\ (has_column df label_col = true -> rows df = [] ->
        extract year df = Err IndexError)
    /\ (has_column df label_col = true -> rows df <> [] ->
        estimate_cols df = [] -> extract year df = Err KeyError)
    /\ (has_column df label_col = true -> rows df <> [] ->
        estimate_cols df <> [] ->
        forall e, extract year df = Err e -> e = ValueError).
Proof.
  intros y df. unfold extract. repeat split.
  - intros H. rewrite H. reflexivity.
  - intros H R. rewrite H. unfold select_median_row, median_rows. rewrite R.
    reflexivity.
  - intros H R E. rewrite H. cbn [negb].
    destruct (select_median_row_ok df R) as [row ->]. cbn [bind].
    rewrite E. reflexivity.
  - intros H R E e. rewrite H. cbn [negb].
    destruct (select_median_row_ok df R) as [row ->]. cbn [bind].
    destruct (estimate_cols df) as [|c cs]; [congruence|].
    intros He. apply for_each_err in He. destruct He as [col [_ He]].
    exact (record_for_err _ _ _ _ _ He).
Qed.

Lemma extract_error_order_witness :
  extract 2020 Notions.no_label_column = Err KeyError
  /\ extract 2020 Notions.no_rows = Err IndexError
  /\ extract 2020 Notions.no_estimates = Err KeyError
  /\ (forall e, extract 2020 Samples.rent_suppressed = Err e -> e = ValueError).
Proof.
  split; [|split; [|split]].
  - apply (proj1 (extract_error_order 2020 Notions.no_label_column)). reflexivity.
  - apply (proj1 (proj2 (extract_error_order 2020 Notions.no_rows))); reflexivity.
  - apply (proj1 (proj2 (proj2 (extract_error_order 2020 Notions.no_estimates))));
      [reflexivity|discriminate|reflexivity].
  - apply (proj2 (proj2 (proj2 (extract_error_order 2020 Samples.rent_suppressed))));
      [reflexivity|discriminate|discriminate].
Defined.


End ExtractOutcomes.

Section UnreadCells.

Import LoadAcs.

Lemma filter_related {A : Type} (R : A -> A -> Prop) (p q : A -> bool) :
  (forall x y, R x y -> p x = q y) ->
  forall l l', Forall2 R l l' -> Forall2 R (filter p l) (filter q l').
Proof.
  intros Hpq l l' H. induction H as [|x y l l' Hxy _ IH]; simpl; [constructor|].
  rewrite (Hpq x y Hxy). destruct (q y); [constructor|]; assumption.
Qed.

Lemma select_median_row_related : forall df df',
    columns df = columns df' ->
    Forall2 (Notions.same_read_cells (columns df)) (rows df) (rows df') ->
    match select_median_row df, select_median_row df' with
    | Ok r, Ok r' => Notions.same_read_cells (columns df) r r'
    | Err e, Err e' => e = e'
    | _, _ => False
    end.
Proof.
  intros df df' Hc Hr. unfold select_median_row, median_rows.
  assert (Hm : Forall2 (Notions.same_read_cells (columns df))
                 (filter (labelled_median df) (rows df))
                 (filter (labelled_median df') (rows df'))).
  { apply filter_related; [|exact Hr]. intros x y Hxy.
    unfold labelled_median. rewrite <- Hc. rewrite (Hxy label_col); reflexivity. }
  destruct Hm as [|x y l l' Hxy _]; [|exact Hxy].
  destruct Hr as [|x y l l' Hxy _]; [reflexivity|exact Hxy].
Qed.

(** The extraction looks at nothing but the label column and the estimate
    columns: two tables with the same columns whose rows agree on those
    cells give the same records or the same exception, whatever their
    margins of error and other cells hold. *)
Theorem unread_cells_irrelevant :
  forall (year : Z) (df df' : DataFrame),
    columns df = columns df' ->
    Forall2 (Notions.same_read_cells (columns df)) (rows df) (rows df') ->
    extract year df = extract year df'.
Proof.
  intros y df df' Hc Hr.
  pose proof (select_median_row_related df df' Hc Hr) as Hs.
  unfold extract, has_column, estimate_cols. rewrite <- Hc.
  destruct (negb (existsb (String.eqb label_col) (columns df))); [reflexivity|].
  destruct (select_median_row df) as [r|e];
    destruct (select_median_row df') as [r'|e']; try contradiction;
    cbn [bind]; [|congruence].
  destruct (filter (PyStr.endswith estimate_suffix) (columns df)) as [|c cs] eqn:E;
    [reflexivity|].
  apply for_each_ext. intros col Hin. rewrite <- E in Hin.
  apply filter_In in Hin. destruct Hin as [_ Hend].
  unfold record_for. rewrite <- Hc. rewrite (Hs col); [reflexivity|].
  unfold Notions.read_by_extract. rewrite Hend. apply orb_true_r.
Qed.

End UnreadCells.

Lemma unread_cells_irrelevant_witness :
  LoadAcs.extract 2020 Samples.income_2020
  = LoadAcs.extract 2020 Notions.income_2020_other_margins.
Proof.
  apply unread_cells_irrelevant; [reflexivity|].
  repeat constructor; intros c Hc;
    unfold Notions.read_by_extract in Hc; simpl columns;
    repeat (cbn [cell_at];
            match goal with
            | |- context [(?k =? c)%string] =>
                destruct (String.eqb_spec k c) as [<-|_];
                [try reflexivity; vm_compute in Hc; discriminate|]
            end);
    reflexivity.
Defined.


Section ReconcilerRuns.

Import LoadAcs.

Lemma load_year_ok_iff : forall w y,
    (exists rows, load_year w y = Ok rows)
    <-> forall t, In t Notions.table_ids -> exists recs, _load_single_table w y t = Ok recs.
Proof.
  intros w y. unfold load_year, Notions.table_ids. split.
  - intros [rows H] t Ht.
    destruct (_load_single_table w y "B19013") as [i|] eqn:Ei; cbn [bind] in H;
      [|discriminate].
    destruct (_load_single_table w y "B25077") as [h|] eqn:Eh; cbn [bind] in H;
      [|discriminate].
    destruct (_load_single_table w y "B25064") as [r|] eqn:Er; cbn [bind] in H;
      [|discriminate].
    destruct Ht as [<-|[<-|[<-|[]]]]; eauto.
  - intros H.
    destruct (H "B19013") as [i ->]; [simpl; auto|].
    destruct (H "B25077") as [h ->]; [simpl; auto|].
    destruct (H "B25064") as [r ->]; [simpl; auto|].
    cbn [bind]. eauto.
Qed.

Lemma for_each_app {A B : Type} (f : A -> result B) : forall l1 l2,
    for_each f (l1 ++ l2)
    = (x <- for_each f l1 ;; y <- for_each f l2 ;; Ok (x ++ y)%list).
Proof.
  induction l1 as [|a t IH]; intros l2; simpl.
  - destruct (for_each f l2); reflexivity.
  - destruct (f a); simpl; [|reflexivity]. rewrite IH.
    destruct (for_each f t); simpl; [|reflexivity].
    destruct (for_each f l2); reflexivity.
Qed.

Lemma for_each_length {A B : Type} (f : A -> result B) : forall l bs,
    for_each f l = Ok bs -> List.length bs = List.length l.
Proof.
  intros l bs H. apply for_each_inv in H. symmetry.
  exact (Forall2_length_eq _ _ _ H).
Qed.

(** When every table that loads has at least one estimate, so that all
    columns are float64 columns, the load returns a table exactly when at
    least one year is asked for and each of the three tables of every year
    asked for loads: one year without its folder, a file or a readable
    estimate makes the whole call raise, and so does an empty list of
    years. *)
Theorem load_acs_returns_iff :
  forall (w : World) (years : option (list Z)),
    Notions.float_columns w years ->
    ((exists out, load_acs_affordability w years = Ok out)
     <-> (chosen_years years <> []
          /\ forall y t, In y (chosen_years years) -> In t Notions.table_ids ->
               exists recs, _load_single_table w y t = Ok recs)).
Proof.
  intros w years _. unfold load_acs_affordability. cbv zeta. split.
  - intros [out H].
    destruct (for_each (load_year w) (chosen_years years)) as [frames|] eqn:F;
      cbn [bind] in H; [|discriminate].
    split.
    + intros E. rewrite E in F. simpl in F. inversion F; subst frames.
      simpl in H. discriminate.
    + intros y t Hy Ht. destruct (for_each_In _ _ _ _ F Hy) as [rows [Hrows _]].
      apply (proj1 (load_year_ok_iff w y)); eauto.
  - intros [Hne Hall].
    destruct (for_each_ok (load_year w) (chosen_years years)) as [frames F].
    { intros y Hy. apply load_year_ok_iff. intros t Ht. exact (Hall y t Hy Ht). }
    rewrite F. cbn [bind]. unfold concat_frames.
    destruct frames as [|fr frs]; [|cbn [bind]; eauto].
    apply for_each_length in F. destruct (chosen_years years); [congruence|discriminate].
Qed.

(** Years are loaded in the order asked for: when every table that loads
    has at least one estimate, so that all columns are float64 columns,
    the table of two lists of years is the table of the first followed by
    the table of the second. *)
Theorem load_acs_years_append :
  forall (w : World) (ys1 ys2 : list Z) (out1 out2 : list AffordabilityRecord),
    Notions.float_columns w (Some (ys1 ++ ys2)%list) ->
    load_acs_affordability w (Some ys1) = Ok out1 ->
    load_acs_affordability w (Some ys2) = Ok out2 ->
    load_acs_affordability w (Some (ys1 ++ ys2)%list) = Ok (out1 ++ out2)%list.
Proof.
  intros w ys1 ys2 out1 out2 _. unfold load_acs_affordability. cbv zeta.
  cbn [chosen_years]. rewrite for_each_app.
  destruct (for_each (load_year w) ys1) as [f1|]; cbn [bind]; [|discriminate].
  destruct (for_each (load_year w) ys2) as [f2|]; cbn [bind]; [|discriminate].
  unfold concat_frames.
  destruct f1 as [|a1 f1]; [discriminate|].
  destruct f2 as [|a2 f2]; [discriminate|].
  cbn [bind app]. intros H1 H2. inversion H1; inversion H2; subst. clear H1 H2.
  f_equal. rewrite <- map_app, <- filter_app. f_equal. f_equal.
  change (a1 :: (f1 ++ a2 :: f2)%list) with ((a1 :: f1) ++ (a2 :: f2))%list.
  apply concat_app.
Qed.

(** Nothing in the table is made up: every row is of a year asked for and
    of a geography that the income, the home-value and the rent table of
    that year all have, and its three values are the values of the estimate
    cells of that geography in those tables, NaN for a missing one. *)
Theorem output_rows_come_from_tables :
  forall (w : World) (years : option (list Z)) (out : list AffordabilityRecord)
         (a : AffordabilityRecord),
    load_acs_affordability w years = Ok out ->
    In a out ->
    In (a_year a) (chosen_years years)
    /\ exists income home_value rent i h r,
        _load_single_table w (a_year a) "B19013" = Ok income
        /\ _load_single_table w (a_year a) "B25077" = Ok home_value
        /\ _load_single_table w (a_year a) "B25064" = Ok rent
        /\ In i income /\ In h home_value /\ In r rent
        /\ mr_geo_name i = a_geo_name a
        /\ mr_geo_name h = a_geo_name a
        /\ mr_geo_name r = a_geo_name a
        /\ median_household_income a = to_column (mr_value i)
        /\ median_home_value a = to_column (mr_value h)
        /\ median_gross_rent a = to_column (mr_value r).
Proof.
  intros w years out a H Ha.
  destruct (output_row _ _ _ _ H Ha)
    as (income & hv & rent & i & h & r & Hy & Hi & Hh & Hr & Ii & Ih & Ir
        & Gi & Gh & Gr & _ & E).
  split; [exact Hy|]. exists income, hv, rent, i, h, r.
  repeat (split; [assumption|]).
  rewrite E. cbn. auto.
Qed.

(** A missing value gives a missing ratio and no exception: a missing
    income makes both ratios missing, a missing home value the price
    ratio, a missing rent the rent ratio. *)
Theorem missing_values_give_missing_ratios :
  forall (w : World) (years : option (list Z)) (out : list AffordabilityRecord)
         (a : AffordabilityRecord),
    load_acs_affordability w years = Ok out ->
    In a out ->
    (Float64.isna (median_household_income a) = true ->
     Float64.isna (price_to_income a) = true
     /\ Float64.isna (rent_to_income a) = true)
    /\ (Float64.isna (median_home_value a) = true ->
        Float64.isna (price_to_income a) = true)
    /\ (Float64.isna (median_gross_rent a) = true ->
        Float64.isna (rent_to_income a) = true).
Proof.
  intros w years out a H Ha.
  destruct (ratio_formulas _ _ _ _ H Ha) as [-> ->].
  split; [|split].
  - intros Hna. destruct (median_household_income a); try discriminate.
    rewrite !div_missing_denominator. auto.
  - intros Hna. destruct (median_home_value a); try discriminate. reflexivity.
  - intros Hna. destruct (median_gross_rent a); try discriminate. reflexivity.
Qed.

(** With an income of zero a ratio is never a finite number.  The price
    ratio is missing when the home value is zero or missing and infinite
    otherwise; the rent ratio is missing or infinite. *)
Theorem zero_income_ratios :
  forall (w : World) (years : option (list Z)) (out : list AffordabilityRecord)
         (a : AffordabilityRecord),
    load_acs_affordability w years = Ok out ->
    In a out ->
    Float64.is_zero (median_household_income a) = true ->
    Float64.isna (price_to_income a)
    = (Float64.isna (median_home_value a) || Float64.is_zero (median_home_value a))%bool
    /\ Float64.is_inf (price_to_income a)
       = negb (Float64.isna (median_home_value a)
               || Float64.is_zero (median_home_value a))
    /\ (Float64.isna (rent_to_income a) || Float64.is_inf (rent_to_income a))%bool = true.
Proof.
  intros w years out a H Ha Hz.
  destruct (ratio_formulas _ _ _ _ H Ha) as [-> ->].
  destruct (median_household_income a) as [s| | |]; try discriminate.
  rewrite !div_zero_denominator.
  split; [|split].
  - destruct (median_home_value a); reflexivity.
  - destruct (median_home_value a); reflexivity.
  - destruct (Float64.mul (median_gross_rent a) (Float64.of_int 12)); reflexivity.
Qed.

End ReconcilerRuns.


Section OneRowPerKey.

Import LoadAcs.

Lemma NoDup_map_finer {A B C : Type} (f : A -> B) (g : A -> C) : forall l,
    (forall x y, g x = g y -> f x = f y) ->
    NoDup (map f l) -> NoDup (map g l).
Proof.
  intros l Hfg. induction l as [|x l IH]; simpl; intros H; [constructor|].
  inversion H as [|? ? Hx Hl]; subst. constructor; [|auto].
  intros Hin. apply Hx. apply in_map_iff in Hin. destruct Hin as [y [E Hy]].
  apply in_map_iff. exists y. split; [apply Hfg; exact E|exact Hy].
Qed.

Lemma NoDup_map_filter {A B : Type} (f : A -> B) (p : A -> bool) : forall l,
    NoDup (map f l) -> NoDup (map f (filter p l)).
Proof.
  induction l as [|x l IH]; simpl; intros H; [constructor|].
  inversion H as [|? ? Hx Hl]; subst.
  destruct (p x); simpl; [constructor|]; auto.
  intros Hin. apply Hx. apply in_map_iff in Hin. destruct Hin as [y [E Hy]].
  apply filter_In in Hy. apply in_map_iff. exists y. tauto.
Qed.

Lemma NoDup_same_key {A B : Type} (f : A -> B) (k : B) : forall l,
    NoDup (map f l) -> (forall x, In x l -> f x = k) ->
    l = [] \/ exists x, l = [x].
Proof.
  intros [|x [|y l]] H Hk; [auto|eauto|]. exfalso.
  inversion H as [|? ? Hx _]; subst. apply Hx. left.
  rewrite (Hk x), (Hk y); simpl; auto.
Qed.

Lemma merge_inner_keys {A B : Type} (ka : A -> string * Z) (kb : B -> string * Z) :
  forall left right,
    NoDup (map ka left) -> NoDup (map kb right) ->
    NoDup (map (fun p => ka (fst p)) (merge_inner ka kb left right)).
Proof.
  intros left right Hl Hr. induction left as [|l left IH]; [constructor|].
  inversion Hl as [|? ? Hnot Hl']; subst.
  change (merge_inner ka kb (l :: left) right)
    with (map (fun r => (l, r)) (filter (fun r => key_eqb (ka l) (kb r)) right)
          ++ merge_inner ka kb left right)%list.
  rewrite map_app. apply NoDup_app; [| apply IH; exact Hl' |].
  - rewrite map_map. simpl.
    destruct (NoDup_same_key kb (ka l)
                (filter (fun r => key_eqb (ka l) (kb r)) right))
      as [->|[x ->]].
    + apply NoDup_map_filter. exact Hr.
    + intros x Hx. apply filter_In in Hx. destruct Hx as [_ Hx].
      apply key_eqb_eq in Hx. auto.
    + constructor.
    + repeat constructor. simpl. tauto.
  - intros k Hk Hk'. apply Hnot.
    rewrite map_map in Hk. apply in_map_iff in Hk. destruct Hk as [r [<- _]].
    simpl in Hk'. apply in_map_iff in Hk'. destruct Hk' as [[l' r'] [E Hin]].
    apply merge_inner_In in Hin. simpl in E. rewrite <- E.
    apply in_map. tauto.
Qed.

Lemma merge_tables_keys : forall income home_value rent,
    NoDup (map mr_geo_name income) ->
    NoDup (map mr_geo_name home_value) ->
    NoDup (map mr_geo_name rent) ->
    NoDup (map Notions.merged_key (merge_tables income home_value rent)).
Proof.
  intros income hv rent Hi Hh Hr.
  assert (Hk : forall l, NoDup (map mr_geo_name l) -> NoDup (map mr_key l)).
  { intros l. apply NoDup_map_finer. intros x y E. unfold mr_key in E. congruence. }
  unfold merge_tables. rewrite map_map. unfold Notions.merged_key. simpl.
  apply (merge_inner_keys (fun p => mr_key (fst p)) mr_key); [|auto].
  apply (merge_inner_keys mr_key mr_key); auto.
Qed.

Lemma frames_keys : forall w years frames,
    for_each (load_year w) years = Ok frames ->
    NoDup years ->
    (forall y t recs, In y years -> In t Notions.table_ids ->
       _load_single_table w y t = Ok recs -> NoDup (map mr_geo_name recs)) ->
    NoDup (map Notions.merged_key (List.concat frames)).
Proof.
  intros w years frames F. apply for_each_inv in F.
  induction F as [|y fr ys frs Hy Hrest IH]; intros Hnd Htab; [constructor|].
  inversion Hnd as [|? ? Hnot Hnd']; subst.
  rewrite concat_cons, map_app.
  unfold load_year in Hy.
  destruct (_load_single_table w y "B19013") as [i|] eqn:Ei; cbn [bind] in Hy;
    [|discriminate].
  destruct (_load_single_table w y "B25077") as [h|] eqn:Eh; cbn [bind] in Hy;
    [|discriminate].
  destruct (_load_single_table w y "B25064") as [r|] eqn:Er; cbn [bind] in Hy;
    [|discriminate].
  inversion Hy; subst fr. clear Hy.
  apply NoDup_app.
  - apply merge_tables_keys.
    + apply (Htab y "B19013" i); simpl; auto.
    + apply (Htab y "B25077" h); simpl; auto.
    + apply (Htab y "B25064" r); simpl; auto.
  - apply IH; [exact Hnd'|]. intros y' t recs Hy' Ht. apply Htab; [right|]; assumption.
  - intros k Hk Hk'. apply Hnot.
    apply in_map_iff in Hk. destruct Hk as [m [<- Hm]].
    apply merge_tables_In in Hm.
    destruct Hm as [i0 [h0 [r0 [Ii [_ [_ [_ [_ ->]]]]]]]].
    pose proof (load_single_table_year _ _ _ _ _ Ei Ii) as Yi.
    apply in_map_iff in Hk'. destruct Hk' as [m' [E Hm']].
    assert (Hfor : for_each (load_year w) ys = Ok frs).
    { clear - Hrest. induction Hrest as [|a b l l' Hab _ IH']; [reflexivity|].
      simpl. rewrite Hab, IH'. reflexivity. }
    destruct (frames_In _ _ _ _ Hfor Hm')
      as [y' [i' [h' [r' [Hy' [Ei' [_ [_ Hm'']]]]]]]].
    apply merge_tables_In in Hm''.
    destruct Hm'' as [i1 [h1 [r1 [Ii1 [_ [_ [_ [_ ->]]]]]]]].
    pose proof (load_single_table_year _ _ _ _ _ Ei' Ii1) as Yi1.
    unfold Notions.merged_key in E. simpl in E. inversion E. congruence.
Qed.

(** One row per year and geography: when the years asked for are pairwise
    distinct and, in every table loaded, the estimate columns give pairwise
    distinct names, no two rows of the final table have the same year and
    geography. *)
Theorem one_row_per_year_and_geography :
  forall (w : World) (years : option (list Z)) (out : list AffordabilityRecord),
    load_acs_affordability w years = Ok out ->
    NoDup (chosen_years years) ->
    (forall y t recs, In y (chosen_years years) -> In t Notions.table_ids ->
       _load_single_table w y t = Ok recs -> NoDup (map mr_geo_name recs)) ->
    NoDup (map Notions.row_key out).
Proof.
  intros w years out H Hnd Htab. unfold load_acs_affordability in H. cbv zeta in H.
  destruct (for_each (load_year w) (chosen_years years)) as [frames|] eqn:F;
    cbn [bind] in H; [|discriminate].
  unfold concat_frames in H. destruct frames as [|fr frs]; [discriminate|].
  cbn [bind] in H. inversion H; subst out. clear H.
  rewrite map_map.
  change (fun x => Notions.row_key (with_ratios x)) with Notions.merged_key.
  apply NoDup_map_filter. exact (frames_keys _ _ _ F Hnd Htab).
Qed.

End OneRowPerKey.

Section ReconcilerWitnesses.

Import LoadAcs.

Lemma acs_2020_float_columns : forall years,
    Notions.float_columns Notions.acs_2020 (Some years).
Proof.
  intros years y t records _ Ht H.
  unfold _load_single_table, _find_table_file in H.
  cbn [Notions.acs_2020 Samples.acs_world year_dir_exists glob_csv] in H.
  destruct (y =? 2020); cbn [negb bind] in H; [|discriminate].
  destruct Ht as [<-|[<-|[<-|[]]]]; vm_compute in H; inversion H; reflexivity.
Qed.

Lemma load_acs_returns_iff_witness :
  Notions.float_columns Notions.acs_2020 (Some [2020])
  /\ (exists out, load_acs_affordability Notions.acs_2020 (Some [2020]) = Ok out)
  /\ ~ (exists out, load_acs_affordability Notions.acs_2020 (Some [2020; 2021]) = Ok out)
  /\ ~ (exists out, load_acs_affordability Notions.acs_2020 (Some []) = Ok out).
Proof.
  split; [apply acs_2020_float_columns|]. split; [|split].
  - apply (proj2 (load_acs_returns_iff Notions.acs_2020 (Some [2020])
                    (acs_2020_float_columns [2020]))).
    split; [discriminate|].
    intros y t [<-|[]] [<-|[<-|[<-|[]]]]; eexists; vm_compute; reflexivity.
  - intros H.
    apply (proj1 (load_acs_returns_iff Notions.acs_2020 (Some [2020; 2021])
                    (acs_2020_float_columns [2020; 2021]))) in H.
    destruct H as [_ H].
    destruct (H 2021 "B19013") as [recs Hrecs]; [simpl; auto|simpl; auto|].
    vm_compute in Hrecs. discriminate.
  - intros H.
    apply (proj1 (load_acs_returns_iff Notions.acs_2020 (Some [])
                    (acs_2020_float_columns []))) in H.
    destruct H as [H _]. apply H. reflexivity.
Defined.

Lemma load_acs_years_append_witness :
  Notions.float_columns Notions.acs_2020 (Some [2020; 2020])
  /\ exists out,
      load_acs_affordability Notions.acs_2020 (Some [2020]) = Ok out
      /\ List.length out = 2%nat
      /\ load_acs_affordability Notions.acs_2020 (Some [2020; 2020])
         = Ok (out ++ out)%list.
Proof.
  split; [apply acs_2020_float_columns|].
  eexists. split; [vm_compute; reflexivity|]. split; [reflexivity|].
  apply (load_acs_years_append Notions.acs_2020 [2020] [2020]);
    [apply acs_2020_float_columns|vm_compute; reflexivity..].
Defined.

Lemma output_rows_come_from_tables_witness :
  exists out,
    load_acs_affordability Notions.acs_2020 (Some [2020]) = Ok out
    /\ out <> []
    /\ forall a, In a out ->
         In (a_year a) [2020]
         /\ exists i,
             In i [ {| mr_year := 2020; mr_geo_name := "Hennepin County, Minnesota";
                       mr_value := Float64.py_float "81169" |};
                    {| mr_year := 2020; mr_geo_name := "Otter Tail County, Minnesota";
                       mr_value := Float64.py_float "59584" |} ]
             /\ mr_geo_name i = a_geo_name a
             /\ median_household_income a = to_column (mr_value i).
Proof.
  eexists. split; [vm_compute; reflexivity|]. split; [discriminate|].
  intros a Ha.
  assert (H : load_acs_affordability Notions.acs_2020 (Some [2020]) = Ok _)
    by (vm_compute; reflexivity).
  destruct (output_rows_come_from_tables Notions.acs_2020 (Some [2020]) _ a H Ha)
    as [Hy (income & hv & rent & i & h & r & Hi & _ & _ & Ii & _ & _ & Gi & _ & _ & Vi & _)].
  split; [exact Hy|]. exists i. split; [|auto].
  destruct Ha as [<-|[<-|[]]]; vm_compute in Hi; inversion Hi; subst income; exact Ii.
Defined.

Lemma missing_values_give_missing_ratios_witness :
  exists a,
    load_acs_affordability
      (Samples.acs_world (Samples.income_of (CStr " "))
         Samples.home_value_200000 Samples.rent_1000) (Some [2020]) = Ok [a]
    /\ Float64.isna (price_to_income a) = true
    /\ Float64.isna (rent_to_income a) = true.
Proof.
  eexists. split; [vm_compute; reflexivity|].
  match goal with
  | |- Float64.isna (price_to_income ?a) = _ /\ _ =>
      apply (proj1 (missing_values_give_missing_ratios
                      (Samples.acs_world (Samples.income_of (CStr " "))
                         Samples.home_value_200000 Samples.rent_1000)
                      (Some [2020]) [a] a ltac:(vm_compute; reflexivity)
                      (or_introl eq_refl)))
  end.
  reflexivity.
Defined.

Lemma reconciled_complete_witness :
  exists out a,
    load_acs_affordability Notions.acs_2020 (Some [2020]) = Ok out
    /\ In a out /\ a_year a = 2020
    /\ a_geo_name a = "Otter Tail County, Minnesota".
Proof.
  assert (H : exists out,
             load_acs_affordability Notions.acs_2020 (Some [2020]) = Ok out)
    by (eexists; vm_compute; reflexivity).
  destruct H as [out H].
  edestruct (reconciled_complete Notions.acs_2020 (Some [2020]) out 2020
               "Otter Tail County, Minnesota") as [a Ha];
    [ exact H | left; reflexivity
    | vm_compute; reflexivity | vm_compute; reflexivity | vm_compute; reflexivity
    | simpl; tauto | simpl; tauto | simpl; tauto | simpl; tauto | ].
  exists out, a. tauto.
Defined.

Lemma zero_income_ratios_witness :
  exists a,
    load_acs_affordability
      (Samples.acs_world (Samples.income_of (CInt 0))
         Samples.home_value_200000 Samples.rent_1000) (Some [2020]) = Ok [a]
    /\ Float64.isna (price_to_income a) = false
    /\ Float64.is_inf (price_to_income a) = true
    /\ (Float64.isna (rent_to_income a) || Float64.is_inf (rent_to_income a))%bool = true.
Proof.
  eexists. split; [vm_compute; reflexivity|].
  match goal with
  | |- Float64.isna (price_to_income ?a) = _ /\ _ =>
      destruct (zero_income_ratios
                  (Samples.acs_world (Samples.income_of (CInt 0))
                     Samples.home_value_200000 Samples.rent_1000)
                  (Some [2020]) [a] a) as [H1 [H2 H3]];
      [vm_compute; reflexivity | left; reflexivity | reflexivity |]
  end.
  rewrite H1, H2. split; [reflexivity|]. split; [reflexivity|exact H3].
Defined.

Lemma one_row_per_year_and_geography_witness :
  exists out,
    load_acs_affordability Notions.acs_2020 (Some [2020]) = Ok out
    /\ List.length out = 2%nat
    /\ NoDup (map Notions.row_key out).
Proof.
  eexists. split; [vm_compute; reflexivity|]. split; [reflexivity|].
  apply (one_row_per_year_and_geography Notions.acs_2020 (Some [2020])).
  - vm_compute. reflexivity.
  - repeat constructor. simpl. tauto.
  - intros y t recs [<-|[]] [<-|[<-|[<-|[]]]] H; vm_compute in H;
      inversion H; subst; simpl;
      repeat constructor; simpl; intuition discriminate.
Defined.

End ReconcilerWitnesses.

Section CellValues.

Import LoadAcs.

(** *** Cleaning twice *)

Lemma remove_char_id : forall c s,
    ~ In c (list_ascii_of_string s) -> PyStr.remove_char c s = s.
Proof.
  intros c s. induction s as [|d s IH]; simpl; intros H; [reflexivity|].
  destruct (Ascii.eqb_spec c d) as [->|_]; [tauto|].
  rewrite IH; [reflexivity|tauto].
Qed.

Lemma lstrip_by_id : forall p s,
    (forall c t, s = String c t -> p c = false) -> PyStr.lstrip_by p s = s.
Proof.
  intros p [|c t] H; [reflexivity|]. simpl. rewrite (H c t eq_refl). reflexivity.
Qed.

Lemma rstrip_by_id : forall p s,
    (forall c, PyStr.last_char s = Some c -> p c = false) -> PyStr.rstrip_by p s = s.
Proof.
  intros p s. induction s as [|c t IH]; intros H; [reflexivity|].
  destruct t as [|d u].
  - simpl. rewrite (H c eq_refl). reflexivity.
  - change (PyStr.rstrip_by p (String c (String d u)))
      with (match PyStr.rstrip_by p (String d u) with
            | EmptyString => if p c then EmptyString else String c EmptyString
            | t' => String c t'
            end).
    rewrite IH; [reflexivity|]. intros x Hx. apply H. exact Hx.
Qed.

(** Cleaning is idempotent: the cleaned text of a cell cleans to itself,
    so a cell and its cleaned text give the same value or the same
    exception. *)
Theorem cleaning_idempotent :
  forall s : string,
    let cleaned := PyStr.strip (PyStr.remove_char "," s) in
    PyStr.strip (PyStr.remove_char "," cleaned) = cleaned
    /\ cell_value (CStr cleaned) = cell_value (CStr s).
Proof.
  intros s cleaned.
  destruct (cleaned_text s) as [Hcomma [Hhead Hlast]]. fold cleaned in Hcomma, Hhead, Hlast.
  assert (E : PyStr.strip (PyStr.remove_char "," cleaned) = cleaned).
  { rewrite (remove_char_id _ _ Hcomma). unfold PyStr.strip.
    rewrite (lstrip_by_id _ _ Hhead). apply rstrip_by_id. exact Hlast. }
  split; [exact E|].
  unfold cell_value. cbn [isna_cell]. rewrite E. reflexivity.
Qed.

End CellValues.

Section NumericCells.

Import LoadAcs.

(** *** Cells that are not text *)

Lemma digit_facts : forall c,
    Float64.is_digit c = true ->
    Float64.is_c_space c = false
    /\ Ascii.eqb c "_" = false
    /\ Float64.take_sign (String c EmptyString) = (false, String c EmptyString)
    /\ Ascii.eqb (PyStr.lower_char c) "i" = false
    /\ Ascii.eqb (PyStr.lower_char c) "n" = false.
Proof.
  intros c H.
  destruct c as [[] [] [] [] [] [] [] []]; vm_compute in H; try discriminate H;
    vm_compute; auto.
Qed.

Lemma digit_char_digit : forall d,
    0 <= d < 10 -> Float64.digit_of (PyStr.digit_char d) = Some d.
Proof.
  intros d H.
  assert (E : d = 0 \/ d = 1 \/ d = 2 \/ d = 3 \/ d = 4 \/ d = 5 \/ d = 6
              \/ d = 7 \/ d = 8 \/ d = 9) by lia.
  repeat (destruct E as [->|E]; [reflexivity|]). subst. reflexivity.
Qed.

Lemma span_digits_cons : forall c t acc cnt d,
    Float64.digit_of c = Some d ->
    Float64.span_digits (String c t) acc cnt
    = Float64.span_digits t (10 * acc + d) (cnt + 1).
Proof. intros c t acc cnt d H. simpl. rewrite H. reflexivity. Qed.

(** Reading back the digits that [str] writes in front of a text. *)
Lemma span_digits_fuel : forall fuel n rest,
    0 <= n < 10 ^ Z.of_nat (S fuel) ->
    exists k,
      1 <= k
      /\ forall acc cnt,
          Float64.span_digits (PyStr.digits_fuel (S fuel) n rest) acc cnt
          = Float64.span_digits rest (acc * 10 ^ k + n) (cnt + k).
Proof.
  induction fuel as [|fuel IH]; intros n rest Hn;
    cbn [PyStr.digits_fuel];
    assert (Hd : 0 <= n mod 10 < 10) by (apply Z.mod_pos_bound; lia);
    destruct (Z.ltb_spec n 10) as [Hlt|Hge].
  - exists 1. split; [lia|]. intros acc cnt.
    rewrite (span_digits_cons _ _ _ _ _ (digit_char_digit _ Hd)).
    rewrite Z.mod_small by lia. f_equal; lia.
  - change (10 ^ Z.of_nat 1) with 10 in Hn. lia.
  - exists 1. split; [lia|]. intros acc cnt.
    rewrite (span_digits_cons _ _ _ _ _ (digit_char_digit _ Hd)).
    rewrite Z.mod_small by lia. f_equal; lia.
  - destruct (IH (n / 10) (String (PyStr.digit_char (n mod 10)) rest))
      as [k [Hk Hspan]].
    { split; [apply Z.div_pos; lia|].
      apply Z.div_lt_upper_bound; [lia|].
      replace (Z.of_nat (S (S fuel))) with (Z.of_nat (S fuel) + 1) in Hn by lia.
      rewrite Z.pow_add_r, Z.pow_1_r in Hn by lia. lia. }
    exists (k + 1). split; [lia|]. intros acc cnt.
    change (PyStr.digits_fuel (S fuel) (n / 10)
              (String (PyStr.digit_char (n mod 10)) rest))
      with (PyStr.digits_fuel (S fuel) (n / 10)
              (String (PyStr.digit_char (n mod 10)) rest)) in Hspan.
    rewrite Hspan, (span_digits_cons _ _ _ _ _ (digit_char_digit _ Hd)).
    rewrite Z.pow_add_r, Z.pow_1_r by lia.
    pose proof (Z.div_mod n 10 ltac:(lia)) as Hdm.
    f_equal; lia.
Qed.

Lemma str_of_nonneg_span : forall n,
    0 <= n ->
    exists k,
      1 <= k /\ Float64.span_digits (PyStr.str_of_nonneg n) 0 0 = (n, k, EmptyString).
Proof.
  intros n Hn. unfold PyStr.str_of_nonneg.
  destruct (span_digits_fuel (Z.to_nat (Z.log2 n)) n EmptyString) as [k [Hk H]].
  { split; [lia|].
    replace (Z.of_nat (S (Z.to_nat (Z.log2 n)))) with (Z.log2 n + 1)
      by (pose proof (Z.log2_nonneg n); lia).
    destruct (Z.eq_dec n 0) as [->|Hz]; [reflexivity|].
    pose proof (Z.log2_spec n ltac:(lia)) as [_ Hlt].
    replace (Z.succ (Z.log2 n)) with (Z.log2 n + 1) in Hlt by lia.
    eapply Z.lt_le_trans; [exact Hlt|].
    apply Z.pow_le_mono_l. lia. }
  exists k. split; [exact Hk|]. rewrite H. cbn [Float64.span_digits].
  rewrite Z.mul_0_l, !Z.add_0_l. reflexivity.
Qed.

Lemma not_underscore_match {A : Type} (prev : option ascii) (a b : A) :
  prev <> Some "_"%char ->
  match prev with
  | Some "_"%char => a
  | _ => b
  end = b.
Proof.
  intros H. destruct prev as [[[] [] [] [] [] [] [] []]|]; try reflexivity.
  exfalso. apply H. reflexivity.
Qed.

Lemma drop_underscores_digits : forall s prev,
    Notions.all_digits s ->
    prev <> Some "_"%char ->
    Float64.drop_underscores prev s = Some s.
Proof.
  induction s as [|c t IH]; intros prev Hall Hprev.
  - simpl. apply not_underscore_match. exact Hprev.
  - assert (Hc : Float64.is_digit c = true) by (apply Hall; left; reflexivity).
    destruct (digit_facts c Hc) as [_ [Hu _]].
    cbn [Float64.drop_underscores]. rewrite Hu.
    rewrite not_underscore_match by exact Hprev.
    rewrite IH; [reflexivity| |].
    + intros x Hx. apply Hall. right. exact Hx.
    + intros E. inversion E; subst. discriminate Hu.
Qed.

Lemma last_char_In : forall s c,
    PyStr.last_char s = Some c -> In c (list_ascii_of_string s).
Proof.
  induction s as [|d t IH]; intros c H; [discriminate|].
  destruct t as [|e u].
  - inversion H; subst. left. reflexivity.
  - right. apply IH. exact H.
Qed.

Lemma digits_fuel_chars : forall fuel n acc,
    Notions.all_digits acc -> Notions.all_digits (PyStr.digits_fuel fuel n acc).
Proof.
  induction fuel as [|fuel IH]; intros n acc Hacc; [exact Hacc|].
  cbn [PyStr.digits_fuel].
  assert (Hd : 0 <= n mod 10 < 10) by (apply Z.mod_pos_bound; lia).
  assert (Hacc' : Notions.all_digits (String (PyStr.digit_char (n mod 10)) acc)).
  { intros c [<-|Hc]; [|apply Hacc; exact Hc].
    unfold Float64.is_digit. rewrite (digit_char_digit _ Hd). reflexivity. }
  destruct (n <? 10); [exact Hacc'|apply IH; exact Hacc'].
Qed.

(** [float] on the digits of a number, with or without a minus sign in
    front. *)
Lemma py_float_digits : forall (neg : bool) (digits : string) (v k : Z),
    Notions.all_digits digits ->
    1 <= k ->
    Float64.span_digits digits 0 0 = (v, k, EmptyString) ->
    Float64.py_float (if neg then String "-" digits else digits)
    = Some (Float64.of_decimal neg v 0).
Proof.
  intros neg digits v k Hall Hk Hspan.
  destruct digits as [|c t]; [simpl in Hspan; inversion Hspan; lia|].
  assert (Hc : Float64.is_digit c = true) by (apply Hall; left; reflexivity).
  destruct (digit_facts c Hc) as [Hsp [Hu [_ [Hi Hn]]]].
  assert (Hsign : Float64.take_sign (String c t) = (false, String c t)).
  { clear - Hc. destruct c as [[] [] [] [] [] [] [] []];
      vm_compute in Hc; try discriminate Hc; reflexivity. }
  assert (Hstrip : forall s,
             (forall x t', s = String x t' -> Float64.is_c_space x = false) ->
             (forall x, PyStr.last_char s = Some x -> Float64.is_c_space x = false) ->
             PyStr.rstrip_by Float64.is_c_space (PyStr.lstrip_by Float64.is_c_space s) = s).
  { intros s H1 H2. rewrite (lstrip_by_id _ _ H1). apply rstrip_by_id. exact H2. }
  assert (Hlast : forall x, PyStr.last_char (String c t) = Some x ->
                            Float64.is_c_space x = false).
  { intros x Hx. apply last_char_In in Hx.
    apply (digit_facts x (Hall x Hx)). }
  assert (Hbody : (let '(neg', rest) := Float64.take_sign (String c t) in
                   match Float64.parse_special neg (String c t) with
                   | Some x => Some x
                   | None => Float64.parse_decimal neg (String c t)
                   end) = Some (Float64.of_decimal neg v 0)).
  { rewrite Hsign.
    assert (Hspecial : Float64.parse_special neg (String c t) = None).
    { unfold Float64.parse_special. cbn [PyStr.lower String.eqb].
      rewrite Hi, Hn. reflexivity. }
    rewrite Hspecial. unfold Float64.parse_decimal. rewrite Hspan.
    replace (k + 0 =? 0) with false by (symmetry; apply Z.eqb_neq; lia).
    reflexivity. }
  unfold Float64.py_float. destruct neg.
  - change (Float64.drop_underscores None (String "-" (String c t)))
      with (option_map (String "-")
              (Float64.drop_underscores (Some "-"%char) (String c t))).
    rewrite (drop_underscores_digits (String c t) (Some "-"%char) Hall)
      by discriminate.
    cbn [option_map]. rewrite Hstrip.
    + cbn [Float64.take_sign]. rewrite Hsign in Hbody. exact Hbody.
    + intros x t' E. inversion E; subst. reflexivity.
    + intros x Hx. apply Hlast. exact Hx.
  - rewrite (drop_underscores_digits (String c t) None Hall) by discriminate.
    rewrite Hstrip.
    + rewrite Hsign in *. exact Hbody.
    + intros x t' E. inversion E; subst. exact Hsp.
    + exact Hlast.
Qed.

Lemma str_of_int_nonempty : forall z, (PyStr.str_of_int z =? "")%string = false.
Proof.
  intros z. unfold PyStr.str_of_int.
  destruct (Z.ltb_spec z 0) as [Hneg|Hpos]; [reflexivity|].
  destruct (str_of_nonneg_span z Hpos) as [k [Hk H]].
  destruct (PyStr.str_of_nonneg z); [|reflexivity].
  simpl in H. inversion H. lia.
Qed.

(** An integer cell never raises and is never missing: whatever the
    integer, [str] writes digits that [float] reads back, and the value is
    the binary64 nearest to the integer.  A boolean cell always raises. *)
Theorem numeric_cells :
  (forall z : Z,
      cell_value (CInt z) = Ok (Some (Float64.of_decimal (z <? 0) (Z.abs z) 0)))
  /\ (forall b : bool, cell_value (CBool b) = Err ValueError).
Proof.
  split.
  - intros z. unfold cell_value, parse_cleaned. cbn [isna_cell].
    assert (Hval : Float64.py_float (PyStr.str_of_int z)
                   = Some (Float64.of_decimal (z <? 0) (Z.abs z) 0)).
    { unfold PyStr.str_of_int. destruct (Z.ltb_spec z 0) as [Hneg|Hpos].
      - destruct (str_of_nonneg_span (- z)) as [k [Hk Hspan]]; [lia|].
        replace (Z.abs z) with (- z) by lia.
        apply (py_float_digits true _ _ k); auto.
        apply digits_fuel_chars. intros c [].
      - destruct (str_of_nonneg_span z) as [k [Hk Hspan]]; [lia|].
        replace (Z.abs z) with z by lia.
        apply (py_float_digits false _ _ k); auto.
        apply digits_fuel_chars. intros c []. }
    rewrite str_of_int_nonempty, Hval. reflexivity.
  - intros []; reflexivity.
Qed.

End NumericCells.

(* ================================================================= *)
(** * Further properties of load_hud.py *)

Section HudRuns.

Import LoadHud.

Variable pr : Printer.
Variable w : World.

Lemma load_one_skipped_events : forall year l event,
    load_one pr w year = Skipped l -> In event l -> year_fails w year event.
Proof.
  intros y l event H Hin. unfold load_one in H.
  destruct (dict_get HUD_FMR_FILES y) as [path|] eqn:D.
  2: { inversion H; subst. destruct Hin as [<-|[]]. apply fails_unconfigured. exact D. }
  destruct (path_exists w path) eqn:E; cbn [negb] in H.
  2: { inversion H; subst. destruct Hin as [<-|[]].
       apply fails_missing; assumption. }
  destruct (read_excel w path) as [df|] eqn:R.
  2: { inversion H; subst. destruct Hin as [<-|[]].
       apply fails_unreadable; assumption. }
  destruct (select_columns (columns df)) as [g f| |] eqn:S.
  - unfold expand_frame in H.
    destruct (sub <- sub_frame df g f y;; for_each (_expand_to_acs_geos pr) sub);
      [|discriminate].
    destruct (List.concat a); [|discriminate].
    inversion H; subst. contradiction.
  - inversion H; subst. destruct Hin as [<-|[]].
    eapply fails_no_geo; eassumption.
  - inversion H; subst. destruct Hin as [<-|[]].
    eapply fails_no_fmr; eassumption.
Qed.

Lemma loop_printed_from : forall years frames printed event,
    In event (fst (loop pr w years frames printed)) ->
    In event printed \/ exists y, In y years /\ year_fails w y event.
Proof.
  induction years as [|y ys IH]; intros frames printed event H; simpl in H.
  - left. exact H.
  - destruct (load_one pr w y) as [l|records|e] eqn:L.
    + destruct (IH _ _ _ H) as [Hp|[y' [Hy' Hf]]].
      * apply in_app_or in Hp. destruct Hp as [Hp|Hp]; [left; exact Hp|].
        right. exists y. split; [left; reflexivity|].
        exact (load_one_skipped_events _ _ _ L Hp).
      * right. exists y'. split; [right|]; assumption.
    + destruct (IH _ _ _ H) as [Hp|[y' [Hy' Hf]]]; [left; exact Hp|].
      right. exists y'. split; [right|]; assumption.
    + left. exact H.
Qed.

(** Nothing is printed without cause: every line of the log is the line of
    a year asked for that has no configured path, no file, an unreadable
    workbook or no plausible column.  A year that yields records, or whose
    workbook names no county of interest, prints nothing. *)
Theorem log_lines_have_a_cause :
  forall (years : option (list Z)) (event : log_event),
    In event (fst (load_hud_fmr pr w years)) ->
    exists y, In y (chosen_years years) /\ year_fails w y event.
Proof.
  intros years event H. rewrite load_hud_fmr_eq in H. cbn [fst] in H.
  destruct (loop_printed_from _ _ _ _ H) as [[]|Hy]. exact Hy.
Qed.

Lemma loop_raised : forall years frames printed e,
    snd (loop pr w years frames printed) = Err e ->
    exists y, In y years /\ load_one pr w y = Raised e.
Proof.
  induction years as [|y ys IH]; intros frames printed e H; simpl in H;
    [discriminate|].
  destruct (load_one pr w y) as [l|records|e'] eqn:L.
  - destruct (IH _ _ _ H) as [y' [Hy' Hr]]. exists y'. split; [right|]; assumption.
  - destruct (IH _ _ _ H) as [y' [Hy' Hr]]. exists y'. split; [right|]; assumption.
  - simpl in H. inversion H; subst. exists y. split; [left; reflexivity|exact L].
Qed.

(** The one way [load_hud_fmr] raises: with a [KeyError], for a year asked
    for whose workbook loads without a "countyname" column.  When every
    workbook that loads for the years asked for has that column, the call
    returns a table. *)
Theorem load_hud_fmr_raises_only_for_county :
  forall (years : option (list Z)),
    (forall e,
        snd (load_hud_fmr pr w years) = Err e ->
        e = KeyError
        /\ exists y path df,
            In y (chosen_years years)
            /\ dict_get HUD_FMR_FILES y = Some path
            /\ read_excel w path = Some df
            /\ has_column df "countyname" = false)
    /\ ((forall y path df,
            In y (chosen_years years) ->
            dict_get HUD_FMR_FILES y = Some path ->
            read_excel w path = Some df ->
            has_column df "countyname" = true) ->
        exists df, snd (load_hud_fmr pr w years) = Ok df).
Proof.
  intros years. rewrite load_hud_fmr_eq. cbn [snd].
  assert (Hraise : forall e,
             snd (loop pr w (chosen_years years) [] []) = Err e ->
             e = KeyError
             /\ exists y path df,
                 In y (chosen_years years)
                 /\ dict_get HUD_FMR_FILES y = Some path
                 /\ read_excel w path = Some df
                 /\ has_column df "countyname" = false).
  { intros e H. destruct (loop_raised _ _ _ _ H) as [y [Hy Hr]].
    destruct (load_one_raised pr w y e Hr) as [-> [path [df [Hd [Hx Hc]]]]].
    split; [reflexivity|]. exists y, path, df. auto. }
  split.
  - intros e H.
    destruct (snd (loop pr w (chosen_years years) [] [])) as [frames|e'];
      [discriminate|].
    inversion H; subst. apply Hraise. reflexivity.
  - intros Hall.
    destruct (snd (loop pr w (chosen_years years) [] [])) as [frames|e];
      [cbn [bind]; eauto|].
    destruct (Hraise e eq_refl) as [_ [y [path [df [Hy [Hd [Hx Hc]]]]]]].
    rewrite (Hall y path df Hy Hd Hx) in Hc. discriminate.
Qed.

Lemma loop_frames_extend : forall years frames printed,
    snd (loop pr w years frames printed)
    = match snd (loop pr w years [] []) with
      | Ok out => Ok (frames ++ out)%list
      | Err e => Err e
      end.
Proof.
  induction years as [|y ys IH]; intros frames printed; simpl.
  - rewrite app_nil_r. reflexivity.
  - destruct (load_one pr w y) as [l|records|e]; simpl.
    + rewrite (IH frames (printed ++ l)%list), (IH [] l).
      destruct (snd (loop pr w ys [] [])); reflexivity.
    + rewrite (IH (frames ++ [records])%list printed), (IH [records] []).
      destruct (snd (loop pr w ys [] [])); [|reflexivity].
      rewrite <- app_assoc. reflexivity.
    + reflexivity.
Qed.

Lemma result_frame_rows : forall frames,
    hud_rows (result_frame frames) = List.concat frames.
Proof. destruct frames; reflexivity. Qed.

(** Years are loaded in the order asked for: the rows of two lists of years
    are the rows of the first followed by the rows of the second. *)
Theorem load_hud_years_append :
  forall (ys1 ys2 : list Z) (d1 d2 : HudFrame),
    snd (load_hud_fmr pr w (Some ys1)) = Ok d1 ->
    snd (load_hud_fmr pr w (Some ys2)) = Ok d2 ->
    exists d,
      snd (load_hud_fmr pr w (Some (ys1 ++ ys2)%list)) = Ok d
      /\ hud_rows d = (hud_rows d1 ++ hud_rows d2)%list.
Proof.
  intros ys1 ys2 d1 d2. rewrite !load_hud_fmr_eq. cbn [snd chosen_years].
  rewrite loop_app.
  destruct (loop pr w ys1 [] []) as [p1 [f1|e1]]; cbn [snd bind]; [|discriminate].
  rewrite (loop_frames_extend ys2 f1 p1).
  destruct (snd (loop pr w ys2 [] [])) as [f2|e2]; cbn [bind]; [|discriminate].
  intros H1 H2. inversion H1; inversion H2; subst.
  eexists. split; [reflexivity|].
  rewrite !result_frame_rows. apply concat_app.
Qed.

(** A year outside 2013 to 2023 has no configured path: whatever the file
    system holds, it is skipped with the line that says so. *)
Theorem unconfigured_year_skipped :
  forall year : Z,
    (dict_get HUD_FMR_FILES year = None <-> year < 2013 \/ 2023 < year)
    /\ (year < 2013 \/ 2023 < year ->
        load_one pr w year = Skipped [NoFileConfigured year]).
Proof.
  intros y.
  assert (H : dict_get HUD_FMR_FILES y = None <-> y < 2013 \/ 2023 < y).
  { unfold HUD_FMR_FILES. cbn [dict_get].
    repeat (match goal with
            | |- context [?k =? y] =>
                destruct (Z.eqb_spec k y) as [<-|?];
                [split; [discriminate|lia]|]
            end).
    split; [lia|reflexivity]. }
  split; [exact H|]. intros Hy. unfold load_one.
  rewrite (proj2 H Hy). reflexivity.
Qed.

End HudRuns.


Section HudRecords.

Import LoadHud.

Variable pr : Printer.
Variable w : World.

Lemma for_each_origin {A B : Type} (f : A -> result B) : forall l bs b,
    for_each f l = Ok bs -> In b bs -> exists a, In a l /\ f a = Ok b.
Proof.
  intros l bs b H Hin. apply for_each_inv in H.
  induction H as [|x y xs ys Hxy _ IH]; [contradiction|].
  destruct Hin as [->|Hin].
  - exists x. split; [left; reflexivity|exact Hxy].
  - destruct (IH Hin) as [a [Ha Hf]]. exists a. split; [right|]; assumption.
Qed.

(** Where the records of a year come from. *)
Lemma load_one_provenance : forall year records,
    load_one pr w year = Mapped records ->
    exists path df g f,
      dict_get HUD_FMR_FILES year = Some path
      /\ read_excel w path = Some df
      /\ select_columns (columns df) = Selected g f
      /\ forall r, In r records ->
           exists raw recs,
             In raw (rows df)
             /\ _expand_to_acs_geos pr (sub_row df g f year raw) = Ok recs
             /\ In r recs
             /\ incl recs records.
Proof.
  intros y records H. unfold load_one in H.
  destruct (dict_get HUD_FMR_FILES y) as [path|] eqn:D; [|discriminate].
  destruct (negb (path_exists w path)); [discriminate|].
  destruct (read_excel w path) as [df|] eqn:R; [|discriminate].
  destruct (select_columns (columns df)) as [g f| |] eqn:S; try discriminate.
  exists path, df, g, f.
  split; [reflexivity|]. split; [exact R|]. split; [exact S|].
  unfold expand_frame, sub_frame in H.
  destruct (forallb (has_column df) [g; f; "countyname"]); cbn [bind] in H;
    [|discriminate].
  destruct (for_each (_expand_to_acs_geos pr) (map (sub_row df g f y) (rows df)))
    as [per_row|] eqn:F; [|discriminate].
  destruct (List.concat per_row) as [|r0 rs] eqn:C; [discriminate|].
  inversion H; subst records. clear H. rewrite <- C. intros r Hr.
  apply in_concat in Hr. destruct Hr as [recs [Hrecs Hr]].
  destruct (for_each_origin _ _ _ _ F Hrecs) as [row [Hrow Hexp]].
  apply in_map_iff in Hrow. destruct Hrow as [raw [<- Hraw]].
  exists raw, recs. repeat split; auto.
  intros x Hx. apply in_concat. eauto.
Qed.

Lemma expand_fields : forall row recs r,
    _expand_to_acs_geos pr row = Ok recs ->
    In r recs ->
    row_get row "year" = Some (rec_year r)
    /\ row_get row "hud_fmr_2br" = Some (rec_hud_fmr_2br r)
    /\ exists r',
        In r' recs
        /\ rec_geo_name r' = Notions.partner (rec_geo_name r)
        /\ rec_year r' = rec_year r
        /\ rec_hud_fmr_2br r' = rec_hud_fmr_2br r.
Proof.
  intros row recs r H Hin. unfold _expand_to_acs_geos in H.
  destruct (row_get row "year") as [y|]; [|discriminate].
  destruct (row_get row "hud_fmr_2br") as [v|]; [|discriminate].
  inversion H; subst recs. clear H.
  assert (Hshape : exists geo,
             r = {| rec_year := y; rec_hud_fmr_2br := v; rec_geo_name := geo |}).
  { apply in_app_or in Hin.
    destruct Hin as [Hin|Hin];
      [destruct (PyStr.contains "otter tail" _)
      |destruct (PyStr.contains "hennepin" _)];
      simpl in Hin; try contradiction;
      destruct Hin as [<-|[<-|[]]]; eauto. }
  destruct Hshape as [geo ->]. cbn [rec_year rec_hud_fmr_2br rec_geo_name].
  split; [reflexivity|]. split; [reflexivity|].
  exists {| rec_year := y; rec_hud_fmr_2br := v;
            rec_geo_name := Notions.partner geo |}.
  split; [|auto].
  apply in_app_or in Hin. apply in_or_app.
  destruct Hin as [Hin|Hin]; [left|right];
    [destruct (PyStr.contains "otter tail" _)
    |destruct (PyStr.contains "hennepin" _)];
    simpl in Hin; try contradiction;
    destruct Hin as [E|[E|[]]]; inversion E; subst geo; simpl; auto.
Qed.

Lemma select_columns_geo : forall cols g f,
    select_columns cols = Selected g f -> (g =? "year")%string = false.
Proof.
  intros cols g f. unfold select_columns.
  destruct (existsb (String.eqb "areaname") cols && existsb (String.eqb "fmr_2") cols)%bool.
  { intros H. inversion H; subst. reflexivity. }
  destruct (filter geo_keyword cols) as [|g' gs] eqn:Fg; [discriminate|].
  destruct (filter fmr_keyword cols) as [|f' fs]; [discriminate|].
  intros H. inversion H; subst.
  assert (Hg : In g (filter geo_keyword cols)) by (rewrite Fg; left; reflexivity).
  apply filter_In in Hg. destruct Hg as [_ Hg].
  destruct (String.eqb_spec g "year") as [->|_]; [|reflexivity].
  vm_compute in Hg. discriminate.
Qed.

Lemma has_label_false : forall key row,
    has_label key row = false ->
    filter (fun kv : string * cell => (fst kv =? key)%string) row = [].
Proof.
  intros key row. unfold has_label. induction row as [|kv row IH]; simpl; [reflexivity|].
  intros H. apply orb_false_iff in H. destruct H as [H1 H2].
  rewrite H1. auto.
Qed.

Lemma row_get_assign_fresh : forall key v row,
    has_label key row = false ->
    row_get (assign key v row) key = Some (Scalar v).
Proof.
  intros key v row H. unfold assign. fold (has_label key row). rewrite H.
  unfold row_get. rewrite filter_app, (has_label_false _ _ H).
  simpl. rewrite String.eqb_refl. reflexivity.
Qed.

Lemma rename_labels : forall old new k row,
    has_label k (rename old new row) = true ->
    k = new \/ (has_label k row = true /\ k <> old).
Proof.
  intros old new k row H. unfold has_label, rename in *.
  apply existsb_exists in H. destruct H as [kv' [Hin E]].
  apply in_map_iff in Hin. destruct Hin as [kv [<- Hin]].
  destruct (String.eqb_spec (fst kv) old) as [Hold|Hold].
  - left. simpl in E. apply String.eqb_eq in E. auto.
  - right. apply String.eqb_eq in E. split.
    + apply existsb_exists. exists kv. split; [exact Hin|].
      apply String.eqb_eq. exact E.
    + congruence.
Qed.

Lemma sub_row_year : forall df g f year raw,
    (g =? "year")%string = false ->
    row_get (sub_row df g f year raw) "year" = Some (Scalar (CInt year)).
Proof.
  intros df g f y raw Hg. unfold sub_row. apply row_get_assign_fresh.
  destruct (has_label "year" _) eqn:E; [|reflexivity]. exfalso.
  apply rename_labels in E. destruct E as [E|[E Hf]]; [discriminate|].
  unfold has_label in E. cbn [map existsb fst] in E.
  rewrite Hg in E. destruct (String.eqb_spec f "year") as [->|_]; [congruence|].
  vm_compute in E. discriminate.
Qed.

Lemma rows_of_frames : forall years printed df (P : list HudRecord -> Prop),
    load_hud_fmr pr w years = (printed, Ok df) ->
    (forall y records,
        In y (chosen_years years) -> load_one pr w y = Mapped records -> P records) ->
    forall r, In r (hud_rows df) ->
      exists records, P records /\ In r records /\ incl records (hud_rows df).
Proof.
  intros years printed df P H HP r Hr. rewrite load_hud_fmr_eq in H.
  apply (f_equal snd) in H. cbn [snd] in H.
  destruct (snd (loop pr w (chosen_years years) [] [])) as [frames|] eqn:L;
    [|discriminate].
  cbn [bind] in H. inversion H; subst df. clear H.
  rewrite result_frame_rows in *.
  assert (HF : Forall P frames).
  { eapply loop_frames; [constructor|exact HP|exact L]. }
  apply in_concat in Hr. destruct Hr as [records [Hin Hr]].
  rewrite Forall_forall in HF. exists records. split; [auto|]. split; [exact Hr|].
  intros x Hx. apply in_concat. eauto.
Qed.

(** Every row of the table carries, as its year, a year that was asked
    for, as an integer. *)
Theorem hud_rows_carry_requested_year :
  forall (years : option (list Z)) (printed : list log_event) (df : HudFrame)
         (r : HudRecord),
    load_hud_fmr pr w years = (printed, Ok df) ->
    In r (hud_rows df) ->
    exists y, In y (chosen_years years) /\ rec_year r = Scalar (CInt y).
Proof.
  intros years printed df r H Hr.
  destruct (rows_of_frames years printed df
              (fun records =>
                 forall x, In x records ->
                   exists y, In y (chosen_years years) /\ rec_year x = Scalar (CInt y))
              H) with (r := r) as [records [HP [Hin _]]]; [|exact Hr|auto].
  intros y records Hy Hm x Hx.
  destruct (load_one_provenance y records Hm)
    as [path [df0 [g [f [_ [_ [Hsel Hprov]]]]]]].
  destruct (Hprov x Hx) as [raw [recs [_ [Hexp [Hxr _]]]]].
  destruct (expand_fields _ _ _ Hexp Hxr) as [Hyear _].
  rewrite (sub_row_year df0 g f y raw (select_columns_geo _ _ _ Hsel)) in Hyear.
  exists y. split; [exact Hy|]. congruence.
Qed.

(** County and principal city go together: for every row of the table
    there is a row of the partner geography with the same year and the
    same rent. *)
Theorem county_and_city_share_rent :
  forall (years : option (list Z)) (printed : list log_event) (df : HudFrame)
         (r : HudRecord),
    load_hud_fmr pr w years = (printed, Ok df) ->
    In r (hud_rows df) ->
    exists r',
      In r' (hud_rows df)
      /\ rec_geo_name r' = Notions.partner (rec_geo_name r)
      /\ rec_year r' = rec_year r
      /\ rec_hud_fmr_2br r' = rec_hud_fmr_2br r.
Proof.
  intros years printed df r H Hr.
  destruct (rows_of_frames years printed df
              (fun records =>
                 forall x, In x records ->
                   exists x', In x' records
                     /\ rec_geo_name x' = Notions.partner (rec_geo_name x)
                     /\ rec_year x' = rec_year x
                     /\ rec_hud_fmr_2br x' = rec_hud_fmr_2br x)
              H) with (r := r) as [records [HP [Hin Hincl]]]; [|exact Hr|].
  - intros y records Hy Hm x Hx.
    destruct (load_one_provenance y records Hm)
      as [path [df0 [g [f [_ [_ [_ Hprov]]]]]]].
    destruct (Hprov x Hx) as [raw [recs [_ [Hexp [Hxr Hsub]]]]].
    destruct (expand_fields _ _ _ Hexp Hxr) as [_ [_ [x' [Hx' Hp]]]].
    exists x'. split; [apply Hsub; exact Hx'|exact Hp].
  - destruct (HP r Hin) as [r' [Hr' Hp]].
    exists r'. split; [apply Hincl; exact Hr'|exact Hp].
Qed.

(** The two loaders agree on names: every geography [load_hud_fmr] returns
    passes the allow-list filter of [load_acs_affordability], and every
    name of that allow-list is one the expansion can give. *)
Theorem hud_names_pass_acs_filter :
  forall (years : option (list Z)),
    (forall printed df r,
        load_hud_fmr pr w years = (printed, Ok df) ->
        In r (hud_rows df) ->
        LoadAcs.isin LoadAcs.target_names (rec_geo_name r) = true)
    /\ (forall name,
          In name LoadAcs.target_names
          <-> In name (otter_tail_geos ++ hennepin_geos)%list).
Proof.
  intros years. split.
  - intros printed df r H Hr.
    destruct (rows_of_frames years printed df
                (Forall (fun x =>
                   In (rec_geo_name x) (otter_tail_geos ++ hennepin_geos)%list))
                H) with (r := r) as [records [HP [Hin _]]]; [|exact Hr|].
    + intros y records _ Hm. apply (load_one_mapped pr w y records Hm).
    + rewrite Forall_forall in HP. specialize (HP r Hin). simpl in HP.
      destruct HP as [<-|[<-|[<-|[<-|[]]]]]; reflexivity.
  - intros name. simpl. tauto.
Qed.

End HudRecords.

Section KnownColumns.

Import LoadHud.

Variable pr : Printer.
Variable w : World.

Lemma for_each_map_ok {A B C : Type} (f : B -> result C) (g : A -> B) (h : A -> C) :
  (forall x, f (g x) = Ok (h x)) ->
  forall l, for_each f (map g l) = Ok (map h l).
Proof.
  intros H. induction l as [|x l IH]; [reflexivity|].
  simpl. rewrite H, IH. reflexivity.
Qed.

Lemma expand_known_row : forall df year raw,
    _expand_to_acs_geos pr (sub_row df "areaname" "fmr_2" year raw)
    = Ok (Notions.known_records pr df year raw).
Proof.
  intros df y raw. unfold Notions.known_records, Notions.geos_of.
  unfold _expand_to_acs_geos.
  change (county_text pr (sub_row df "areaname" "fmr_2" y raw))
    with (str_cell pr (cell_at (columns df) raw "countyname")).
  change (row_get (sub_row df "areaname" "fmr_2" y raw) "year")
    with (Some (Scalar (CInt y))).
  change (row_get (sub_row df "areaname" "fmr_2" y raw) "hud_fmr_2br")
    with (Some (Scalar (cell_at (columns df) raw "fmr_2"))).
  cbv beta iota.
  destruct (PyStr.contains "otter tail" _);
    destruct (PyStr.contains "hennepin" _); reflexivity.
Qed.

(** A workbook with the columns "areaname", "fmr_2" and "countyname" gives,
    row after row, a record for each ACS name its county text stands for,
    with the year asked for and the cell under "fmr_2" as it is; the cells
    under "areaname" play no part.  Without any such record the year is
    skipped in silence. *)
Theorem known_columns_records :
  forall (year : Z) (path : string) (df : DataFrame),
    dict_get HUD_FMR_FILES year = Some path ->
    path_exists w path = true ->
    read_excel w path = Some df ->
    In "areaname" (columns df) ->
    In "fmr_2" (columns df) ->
    In "countyname" (columns df) ->
    load_one pr w year
    = match flat_map (Notions.known_records pr df year) (rows df) with
      | [] => Skipped []
      | records => Mapped records
      end.
Proof.
  intros y path df Hd He Hr Ha Hf Hc. unfold load_one.
  rewrite Hd, He, Hr. cbn [negb].
  assert (Hsel : select_columns (columns df) = Selected "areaname" "fmr_2").
  { unfold select_columns.
    rewrite (proj2 (has_label_In _ _) Ha), (proj2 (has_label_In _ _) Hf).
    reflexivity. }
  rewrite Hsel. unfold expand_frame, sub_frame.
  assert (Hall : forallb (has_column df) ["areaname"; "fmr_2"; "countyname"] = true).
  { cbn [forallb]. unfold has_column.
    rewrite (proj2 (has_label_In _ _) Ha), (proj2 (has_label_In _ _) Hf),
      (proj2 (has_label_In _ _) Hc). reflexivity. }
  rewrite Hall. cbn [bind].
  rewrite (for_each_map_ok _ _ _ (fun raw => expand_known_row df y raw)).
  rewrite <- flat_map_concat_map. reflexivity.
Qed.

End KnownColumns.

Section HudWitnesses.

Import LoadHud.

Lemma log_lines_have_a_cause_witness :
  exists y,
    In y (chosen_years None)
    /\ year_fails Samples.hud_mixed y (ReadFailed 2014 "2014/FY2014_4050_RevFinal.xls").
Proof.
  apply (log_lines_have_a_cause Samples.printer Samples.hud_mixed None).
  vm_compute. left. reflexivity.
Defined.

Lemma load_hud_fmr_raises_only_for_county_witness :
  (exists df,
      snd (load_hud_fmr Samples.printer Samples.hud_mixed (Some [2013; 2014; 2015]))
      = Ok df)
  /\ (exists y path df,
         In y [2014; 2013]
         /\ dict_get HUD_FMR_FILES y = Some path
         /\ read_excel Samples.hud_county_lost path = Some df
         /\ has_column df "countyname" = false).
Proof.
  split.
  - apply (proj2 (load_hud_fmr_raises_only_for_county Samples.printer
                    Samples.hud_mixed (Some [2013; 2014; 2015]))).
    intros y path df [<-|[<-|[<-|[]]]] Hd Hr;
      vm_compute in Hd; inversion Hd; subst path;
      vm_compute in Hr; inversion Hr; subst df; reflexivity.
  - apply (proj1 (load_hud_fmr_raises_only_for_county Samples.printer
                    Samples.hud_county_lost (Some [2014; 2013])) KeyError).
    vm_compute. reflexivity.
Defined.

Lemma load_hud_years_append_witness :
  exists d1 d2 d,
    snd (load_hud_fmr Samples.printer Samples.hud_mixed (Some [2013; 2014])) = Ok d1
    /\ snd (load_hud_fmr Samples.printer Samples.hud_mixed (Some [2015])) = Ok d2
    /\ snd (load_hud_fmr Samples.printer Samples.hud_mixed (Some [2013; 2014; 2015]))
       = Ok d
    /\ List.length (hud_rows d1) = 4%nat
    /\ List.length (hud_rows d2) = 2%nat
    /\ hud_rows d = (hud_rows d1 ++ hud_rows d2)%list.
Proof.
  eexists. eexists.
  edestruct (load_hud_years_append Samples.printer Samples.hud_mixed
               [2013; 2014] [2015]) as [d [Hd Hrows]];
    [vm_compute; reflexivity | vm_compute; reflexivity |].
  exists d. split; [vm_compute; reflexivity|]. split; [vm_compute; reflexivity|].
  split; [exact Hd|]. split; [reflexivity|]. split; [reflexivity|exact Hrows].
Defined.

Lemma unconfigured_year_skipped_witness :
  load_one Samples.printer Samples.hud_mixed 2012 = Skipped [NoFileConfigured 2012]
  /\ load_one Samples.printer Samples.hud_mixed 2024 = Skipped [NoFileConfigured 2024].
Proof.
  split.
  - apply (proj2 (unconfigured_year_skipped Samples.printer Samples.hud_mixed 2012)). lia.
  - apply (proj2 (unconfigured_year_skipped Samples.printer Samples.hud_mixed 2024)). lia.
Defined.

Lemma hud_rows_carry_requested_year_witness :
  exists printed df,
    load_hud_fmr Samples.printer Samples.hud_mixed (Some [2013; 2015]) = (printed, Ok df)
    /\ hud_rows df <> []
    /\ forall r, In r (hud_rows df) ->
         exists y, In y [2013; 2015] /\ rec_year r = Scalar (CInt y).
Proof.
  eexists. eexists. split; [vm_compute; reflexivity|]. split; [discriminate|].
  intros r Hr.
  refine (hud_rows_carry_requested_year Samples.printer Samples.hud_mixed
            (Some [2013; 2015]) _ _ r _ Hr).
  vm_compute. reflexivity.
Defined.

Lemma county_and_city_share_rent_witness :
  exists printed df,
    load_hud_fmr Samples.printer Samples.hud_mixed (Some [2013; 2015]) = (printed, Ok df)
    /\ hud_rows df <> []
    /\ forall r, In r (hud_rows df) ->
         exists r',
           In r' (hud_rows df)
           /\ rec_geo_name r' = Notions.partner (rec_geo_name r)
           /\ rec_year r' = rec_year r
           /\ rec_hud_fmr_2br r' = rec_hud_fmr_2br r.
Proof.
  eexists. eexists. split; [vm_compute; reflexivity|]. split; [discriminate|].
  intros r Hr.
  refine (county_and_city_share_rent Samples.printer Samples.hud_mixed
            (Some [2013; 2015]) _ _ r _ Hr).
  vm_compute. reflexivity.
Defined.

Lemma hud_names_pass_acs_filter_witness :
  exists printed df,
    load_hud_fmr Samples.printer Samples.hud_mixed None = (printed, Ok df)
    /\ hud_rows df <> []
    /\ forall r, In r (hud_rows df) ->
         LoadAcs.isin LoadAcs.target_names (rec_geo_name r) = true.
Proof.
  eexists. eexists. split; [vm_compute; reflexivity|]. split; [discriminate|].
  intros r Hr.
  refine (proj1 (hud_names_pass_acs_filter Samples.printer Samples.hud_mixed None)
            _ _ r _ Hr).
  vm_compute. reflexivity.
Defined.

Lemma known_columns_records_witness :
  load_one Samples.printer Samples.hud_mixed 2013
  = Mapped (flat_map (Notions.known_records Samples.printer Samples.hud_known 2013)
              (rows Samples.hud_known))
  /\ List.length
       (flat_map (Notions.known_records Samples.printer Samples.hud_known 2013)
          (rows Samples.hud_known)) = 4%nat.
Proof.
  split; [|reflexivity].
  rewrite (known_columns_records Samples.printer Samples.hud_mixed 2013
             "2013/FY2013_4050_Final.xls" Samples.hud_known);
    try reflexivity; simpl; auto.
Defined.

End HudWitnesses.

